(** * Trimble Connect integration: project-file enumeration and viewer page

  A shallow embedding of [app.py]: the recursive walk over a project's
  folders ([Controller.list_project_files]), the two option-list
  builders of the parametrization ([get_trimble_projects],
  [get_project_files]) and the viewer page ([build_trimble_viewer_html]).

  Python values that reach the code from JSON are kept as they arrive
  ([Py.value]); JSON objects are finite maps from keys to such values.
  The remote service and the token provider are a [World]; every request
  the code issues is written to a trace, so that statements about which
  requests are (not) made can be read off the result. *)

From Stdlib Require Import ZArith Ascii String List Lia.
From stdpp Require Import base option list gmap strings pretty.

Local Open Scope string_scope.
Local Open Scope list_scope.

(** ** Strings *)

Module PyStr.

(** The ASCII part of [str.upper]: a..z go to A..Z, every other byte
    stays. Strings are byte sequences here; the case mappings of
    non-ASCII text never yield one of the letters of [FOLDER] on its own,
    so the comparison made by the code is decided by this part. *)
Definition upper_ascii (c : ascii) : ascii :=
  if (Ascii.leb "a" c && Ascii.leb c "z")%bool
  then ascii_of_nat (nat_of_ascii c - 32)
  else c.

Fixpoint upper (s : string) : string :=
  match s with
  | EmptyString => EmptyString
  | String c s' => String (upper_ascii c) (upper s')
  end.

(** ASCII case folding towards lower case, used only to say what
    "equal up to case" means. *)
Definition lower_ascii (c : ascii) : ascii :=
  if (Ascii.leb "A" c && Ascii.leb c "Z")%bool
  then ascii_of_nat (nat_of_ascii c + 32)
  else c.

Fixpoint lower (s : string) : string :=
  match s with
  | EmptyString => EmptyString
  | String c s' => String (lower_ascii c) (lower s')
  end.

Definition eq_nocase (s t : string) : Prop := lower s = lower t.

Fixpoint mem (c : ascii) (chars : string) : bool :=
  match chars with
  | EmptyString => false
  | String d chars' => (Ascii.eqb c d || mem c chars')%bool
  end.

(** [s.lstrip(chars)]: drop every leading character that is in [chars]. *)
Fixpoint lstrip (chars s : string) : string :=
  match s with
  | EmptyString => EmptyString
  | String c s' => if mem c chars then lstrip chars s' else s
  end.

(** [sep.join(l)] *)
Fixpoint join (sep : string) (l : list string) : string :=
  match l with
  | [] => ""
  | [x] => x
  | x :: l' => x +:+ sep +:+ join sep l'
  end.

(** every character of [s] is in [chars] *)
Fixpoint only (chars s : string) : bool :=
  match s with
  | EmptyString => true
  | String c s' => (mem c chars && only chars s')%bool
  end.

Definition starts_with (c : ascii) (s : string) : bool :=
  match s with
  | String d _ => Ascii.eqb c d
  | EmptyString => false
  end.

End PyStr.

(** ** Python values *)

Module Py.

(** What a JSON scalar becomes after [resp.json()]. Floats and nested
    containers as field values are left out. *)
Inductive value :=
| None_
| Bool (b : bool)
| Int (z : Z)
| Str (s : string).

#[global] Instance value_eq_dec : EqDecision value.
Proof. solve_decision. Defined.

(** truth value, as tested by [if], [not] and [or] *)
Definition truthy (v : value) : bool :=
  match v with
  | None_ => false
  | Bool b => b
  | Int z => negb (z =? 0)%Z
  | Str s => negb (String.eqb s "")
  end.

(** [a or b] *)
Definition or_ (a b : value) : value := if truthy a then a else b.

(** [str(v)], which is also what an f-string field [{v}] prints *)
Definition str (v : value) : string :=
  match v with
  | None_ => "None"
  | Bool true => "True"
  | Bool false => "False"
  | Int z => pretty z
  | Str s => s
  end.

Definition type_name (v : value) : string :=
  match v with
  | None_ => "NoneType"
  | Bool _ => "bool"
  | Int _ => "int"
  | Str _ => "str"
  end.

(** A JSON object. *)
Abbreviation dict := (gmap string value).

(** [d.get(k)] and [d.get(k, default)] *)
Definition get (d : dict) (k : string) : value := default None_ (d !! k).
Definition get_or (d : dict) (k : string) (dflt : value) : value :=
  default dflt (d !! k).

(** An exception: its class and [str(e)]. Only subclasses of
    [Exception] occur. *)
Record exn := Exn { exn_class : string; exn_str : string }.

#[global] Instance exn_eq_dec : EqDecision exn.
Proof. solve_decision. Defined.

Definition Exception (msg : string) : exn := Exn "Exception" msg.
Definition AttributeError (msg : string) : exn := Exn "AttributeError" msg.
(** [str(KeyError(k))] is the repr of the key *)
Definition KeyError (k : string) : exn := Exn "KeyError" ("'" +:+ k +:+ "'").

End Py.

Import Py.

(** ** Effects: exceptions, requests, and the remote world *)

(** How a call ends. [OutOfFuel] belongs to the model only: the walk is
    recursive on remote data, and the model bounds its depth. *)
Inductive outcome (A : Type) :=
| Ret (a : A)
| Raise (e : exn)
| OutOfFuel.
Arguments Ret {A} a.
Arguments Raise {A} e.
Arguments OutOfFuel {A}.

(** What leaves the process. *)
Inductive event :=
| GetAccessToken (integration : string)
| HttpGet (url : string) (authorization : string).

#[global] Instance event_eq_dec : EqDecision event.
Proof. solve_decision. Defined.

(** A computation: its outcome and the events it caused, oldest first. *)
Definition M (A : Type) : Type := outcome A * list event.

Definition ret {A} (a : A) : M A := (Ret a, []).
Definition raise {A} (e : exn) : M A := (Raise e, []).

Definition bind {A B} (m : M A) (k : A -> M B) : M B :=
  match m with
  | (Ret a, t) => let '(o, t') := k a in (o, t ++ t')
  | (Raise e, t) => (Raise e, t)
  | (OutOfFuel, t) => (OutOfFuel, t)
  end.

(** [try: m  except Exception as e: h e] *)
Definition try_except {A} (m : M A) (h : exn -> M A) : M A :=
  match m with
  | (Raise e, t) => let '(o, t') := h e in (o, t ++ t')
  | other => other
  end.

Declare Scope py_scope.
Delimit Scope py_scope with py.
Notation "x <- m ;; k" := (bind m (fun x => k))
  (at level 100, m at next level, right associativity) : py_scope.
Local Open Scope py_scope.

(** The answer to one request. *)
Inductive response (A : Type) :=
| Failed (e : exn)
| Body (a : A).
Arguments Failed {A} e.
Arguments Body {A} a.

(** The collaborators. [http_object] and [http_array] stand for
    [requests.get(url, headers=headers)], [raise_for_status()] and
    [.json()] taken together, at an endpoint that answers with an object,
    respectively an array of objects. [Failed e] is any exception of the
    three calls. *)
Record World := {
  access_token : string -> response string;
  http_object : string -> string -> response dict;
  http_array : string -> string -> response (list dict)
}.

Definition of_response {A} (ev : event) (r : response A) : M A :=
  match r with
  | Failed e => (Raise e, [ev])
  | Body a => (Ret a, [ev])
  end.

(** [vkt.external.OAuth2Integration(name).get_access_token()] *)
Definition get_access_token (W : World) (name : string) : M string :=
  of_response (GetAccessToken name) (access_token W name).

Definition get_object (W : World) (url auth : string) : M dict :=
  of_response (HttpGet url auth) (http_object W url auth).

Definition get_array (W : World) (url auth : string) : M (list dict) :=
  of_response (HttpGet url auth) (http_array W url auth).

(** ** Constants *)

Definition BASE_URL : string := "https://app.connect.trimble.com".
Definition API_BASE : string := BASE_URL +:+ "/tc/api/2.0".

(** the value of [headers["Authorization"]] *)
Definition bearer (token : string) : string := "Bearer " +:+ token.

Definition projects_url : string := API_BASE +:+ "/projects".
Definition project_url (project_id : value) : string :=
  API_BASE +:+ "/projects/" +:+ str project_id.
Definition folder_url (folder_id : value) : string :=
  API_BASE +:+ "/folders/" +:+ str folder_id +:+ "/items".

(** ** The walk over folders *)

(** [(item.get("type") or item.get("entityType") or "").upper()] *)
Definition item_type (item : dict) : M string :=
  match or_ (or_ (get item "type") (get item "entityType")) (Str "") with
  | Str s => ret (PyStr.upper s)
  | v => raise (AttributeError
           ("'" +:+ type_name v +:+ "' object has no attribute 'upper'"))
  end.

(** [f"{current_path}/{name}".lstrip("/")] *)
Definition item_path (current_path : string) (name : value) : string :=
  PyStr.lstrip "/" (current_path +:+ "/" +:+ str name).

Section ListFolder.

(** The two copies of [list_folder] in the source differ only in the
    record they append for a leaf. *)
Context {R : Type}.
Variable record : value -> value -> string -> dict -> R.
Variable W : World.
Variable headers : string.

(** The body of [for item in items], with [files] the list built so far
    and [rec] the recursive call. *)
Fixpoint for_items (rec : value -> string -> M (list R))
    (items : list dict) (current_path : string) (files : list R)
    : M (list R) :=
  match items with
  | [] => ret files
  | item :: rest =>
      let name := get_or item "name" (Str "") in
      let item_id := get item "id" in
      ty <- item_type item ;;
      let path := item_path current_path name in
      if String.eqb ty "FOLDER" then
        sub <- rec item_id path ;;
        for_items rec rest current_path (files ++ sub)
      else
        for_items rec rest current_path
          (files ++ [record item_id name path item])
  end.

Fixpoint list_folder (fuel : nat) (folder_id : value)
    (current_path : string) : M (list R) :=
  match fuel with
  | O => (OutOfFuel, [])
  | S fuel' =>
      items <- get_array W (folder_url folder_id) headers ;;
      for_items (list_folder fuel') items current_path []
  end.

End ListFolder.

(** ** Records built by the code *)

(** The dict appended by [Controller.list_project_files] for a leaf. *)
Module FileRecord.
Record t := mk {
  id : value;
  name : value;
  path : string;
  size : value;
  modifiedAt : value;
  raw : dict
}.
End FileRecord.

(** The lighter dict appended by [get_project_files] for a leaf. *)
Module FileEntry.
Record t := mk {
  id : value;
  name : value;
  path : string
}.
End FileEntry.

(** [vkt.OptionListElement(value=..., label=...)] *)
Module OptionListElement.
Record t := mk {
  value : Py.value;
  label : Py.value
}.
End OptionListElement.

Definition file_record (item_id name : value) (path : string) (item : dict)
    : FileRecord.t :=
  {| FileRecord.id := item_id;
     FileRecord.name := name;
     FileRecord.path := path;
     FileRecord.size := get item "size";
     FileRecord.modifiedAt := or_ (get item "modifiedAt") (get item "modifiedOn");
     FileRecord.raw := item |}.

Definition file_entry (item_id name : value) (path : string) (item : dict)
    : FileEntry.t :=
  {| FileEntry.id := item_id;
     FileEntry.name := name;
     FileEntry.path := path |}.

(** ** [Controller.list_project_files] *)

Module Controller.

Definition list_folder (W : World) (headers : string) :=
  list_folder file_record W headers.

Definition list_project_files (W : World) (fuel : nat)
    (project_id : value) (token : string) : M (list FileRecord.t) :=
  let headers := bearer token in
  proj <- get_object W (project_url project_id) headers ;;
  let root_id := get proj "rootId" in
  if negb (truthy root_id) then
    raise (Exception "Could not find root folder ID for this project.")
  else
    list_folder W headers fuel root_id "".

End Controller.

(** ** The option lists of the parametrization *)

(** [d[k]] *)
Definition getitem (d : dict) (k : string) : M value :=
  match d !! k with
  | Some v => ret v
  | None => raise (KeyError k)
  end.

(** [[vkt.OptionListElement(value=project["id"], label=project["name"])
      for project in projects]] *)
Fixpoint project_options (projects : list dict)
    : M (list OptionListElement.t) :=
  match projects with
  | [] => ret []
  | project :: rest =>
      v <- getitem project "id" ;;
      l <- getitem project "name" ;;
      os <- project_options rest ;;
      ret (OptionListElement.mk v l :: os)
  end.

(** [options if options else [fallback]] *)
Definition or_fallback {A} (options : list A) (fallback : A) : list A :=
  match options with
  | [] => [fallback]
  | _ => options
  end.

Definition integration_name : string := "trimble-connect".

(** the [try] block of [get_trimble_projects] *)
Definition load_projects (W : World) : M (list OptionListElement.t) :=
  token <- get_access_token W integration_name ;;
  let headers := bearer token in
  projects <- get_array W projects_url headers ;;
  options <- project_options projects ;;
  ret (or_fallback options
         (OptionListElement.mk (Str "") (Str "No projects found"))).

Definition get_trimble_projects (W : World) : M (list OptionListElement.t) :=
  try_except (load_projects W)
    (fun e =>
       ret [OptionListElement.mk (Str "error")
              (Str ("Error loading projects: " +:+ exn_str e))]).

(** the [try] block of [get_project_files]; [params] is read only at
    [params.project] *)
Definition load_files (W : World) (fuel : nat) (project : value)
    : M (list OptionListElement.t) :=
  token <- get_access_token W integration_name ;;
  let headers := bearer token in
  proj <- get_object W (project_url project) headers ;;
  let root_id := get proj "rootId" in
  if negb (truthy root_id) then
    ret [OptionListElement.mk (Str "") (Str "Could not find root folder")]
  else
    files <- list_folder file_entry W headers fuel root_id "" ;;
    let options :=
      map (fun file => OptionListElement.mk (FileEntry.id file)
                         (Str (FileEntry.path file))) files in
    ret (or_fallback options
           (OptionListElement.mk (Str "") (Str "No files found in project"))).

Definition get_project_files (W : World) (fuel : nat) (project : value)
    : M (list OptionListElement.t) :=
  if negb (truthy project) then
    ret [OptionListElement.mk (Str "Select a Project First")
           (Str "Select a Project First")]
  else
    try_except (load_files W fuel project)
      (fun e =>
         ret [OptionListElement.mk (Str "error")
                (Str ("Error loading files: " +:+ exn_str e))]).

(** ** The viewer page *)

Definition dq : string := String (ascii_of_nat 34) "".
Definition nl : string := String (ascii_of_nat 10) "".

(** every line followed by a line feed *)
Fixpoint unlines (l : list string) : string :=
  match l with
  | [] => ""
  | x :: l' => x +:+ nl +:+ unlines l'
  end.

Definition VIEWER_HTML_TEMPLATE : string := unlines [
  "<!doctype html>";
  "<html>";
  "  <head>";
  "    <meta charset=" +:+ dq +:+ "utf-8" +:+ dq +:+ " />";
  "    <title>Trimble Connect Viewer</title>";
  "    <style>";
  "      html, body {";
  "        margin: 0;";
  "        padding: 0;";
  "        height: 100%;";
  "        width: 100%;";
  "        overflow: hidden;";
  "      }";
  "      #tc-viewer {";
  "        border: 0;";
  "        width: 100%;";
  "        height: 100%;";
  "      }";
  "    </style>";
  "    <script src=" +:+ dq +:+ "https://components.connect.trimble.com/trimble-connect-workspace-api/index.js" +:+ dq +:+ "></script>";
  "  </head>";
  "  <body>";
  "    <iframe";
  "      id=" +:+ dq +:+ "tc-viewer" +:+ dq;
  "      src=" +:+ dq +:+ "about:blank" +:+ dq;
  "      allowfullscreen";
  "    ></iframe>";
  "";
  "    <script>";
  "      const ACCESS_TOKEN = " +:+ dq +:+ "__ACCESS_TOKEN__" +:+ dq +:+ ";";
  "      const PROJECT_ID   = " +:+ dq +:+ "__PROJECT_ID__" +:+ dq +:+ ";";
  "      const MODEL_ID     = " +:+ dq +:+ "__MODEL_ID__" +:+ dq +:+ ";";
  "      const VERSION_ID   = " +:+ dq +:+ "__VERSION_ID__" +:+ dq +:+ ";";
  "";
  "      (async function () {";
  "        try {";
  "          const iframe = document.getElementById(" +:+ dq +:+ "tc-viewer" +:+ dq +:+ ");";
  "";
  "          // Get Trimble's embedded app URL";
  "          iframe.src = TrimbleConnectWorkspace.getConnectEmbedUrl();";
  "";
  "          // Connect Workspace API to the iframe";
  "          const api = await TrimbleConnectWorkspace.connect(";
  "            iframe,";
  "            function (event, data) {";
  "              console.log(" +:+ dq +:+ "TC event:" +:+ dq +:+ ", event, data);";
  "            },";
  "            30000";
  "          );";
  "";
  "          // Pass the OAuth access token";
  "          await api.embed.setTokens({";
  "            accessToken: ACCESS_TOKEN";
  "          });";
  "";
  "          // Configure which project/model to open";
  "          const config = {";
  "            projectId: PROJECT_ID,";
  "            modelId: MODEL_ID";
  "          };";
  "";
  "          if (VERSION_ID) {";
  "            config.versionId = VERSION_ID;";
  "          }";
  "";
  "          // Start 3D viewer";
  "          await api.embed.init3DViewer(config);";
  "        } catch (e) {";
  "          console.error(" +:+ dq +:+ "Error initializing Trimble viewer:" +:+ dq +:+ ", e);";
  "          alert(" +:+ dq +:+ "Failed to initialize Trimble Connect viewer. Check console." +:+ dq +:+ ");";
  "        }";
  "      })();";
  "    </script>";
  "  </body>";
  "</html>"
].

(** [s.replace(old, new)] for a non-empty [old]: scan from the left; at an
    occurrence of [old] emit [new] and skip the rest of the occurrence. *)
Fixpoint replace_from (old new : string) (skip : nat) (s : string) : string :=
  match s with
  | EmptyString => EmptyString
  | String c s' =>
      match skip with
      | S k => replace_from old new k s'
      | O =>
          if String.prefix old s
          then new +:+ replace_from old new (String.length old - 1) s'
          else String c (replace_from old new 0 s')
      end
  end.

(** with an empty [old], Python puts [new] before every character and at
    the end *)
Fixpoint intersperse (new s : string) : string :=
  match s with
  | EmptyString => new
  | String c s' => new +:+ String c (intersperse new s')
  end.

Definition replace (old new s : string) : string :=
  match old with
  | EmptyString => intersperse new s
  | _ => replace_from old new 0 s
  end.

(** [version_id or ""] *)
Definition or_empty (version_id : option string) : string :=
  match version_id with
  | Some s => s
  | None => ""
  end.

Definition build_trimble_viewer_html (access_token project_id model_id : string)
    (version_id : option string) : string :=
  let html := VIEWER_HTML_TEMPLATE in
  let html := replace "__ACCESS_TOKEN__" access_token html in
  let html := replace "__PROJECT_ID__" project_id html in
  let html := replace "__MODEL_ID__" model_id html in
  let html := replace "__VERSION_ID__" (or_empty version_id) html in
  html.

(** number of positions of [s] at which [sub] starts *)
Fixpoint occurrences (sub s : string) : nat :=
  match s with
  | EmptyString => 0
  | String _ s' =>
      (if String.prefix sub s then 1 else 0) + occurrences sub s'
  end.

(** ** The download and the web view *)

(** [vkt.DownloadResult(vkt.File.from_data(data), file_name)] *)
Module DownloadResult.
Record t := mk {
  data : string;
  file_name : string
}.
End DownloadResult.

(** [vkt.WebResult(html=...)] *)
Module WebResult.
Record t := mk {
  html : string
}.
End WebResult.

Definition UserError (msg : string) : exn := Exn "UserError" msg.
Definition TypeError (msg : string) : exn := Exn "TypeError" msg.

(** [v == lit] for a str literal *)
Definition eq_str (v : value) (lit : string) : bool :=
  match v with
  | Str s => String.eqb s lit
  | _ => false
  end.

(** [html.replace(marker, v)] takes a str only. *)
Definition replace_argument (v : value) : M string :=
  match v with
  | Str s => ret s
  | _ => raise (TypeError
           ("replace() argument 2 must be str, not " +:+ type_name v))
  end.

(** The call [build_trimble_viewer_html(access_token=access_token,
    project_id=params.project, model_id=params.file, version_id=None)]
    with whatever [params] holds: the project is replaced before the
    model. *)
Definition viewer_html (access_token : string) (project file : value)
    : M string :=
  p <- replace_argument project ;;
  f <- replace_argument file ;;
  ret (build_trimble_viewer_html access_token p f None).

(** [params] is read at [params.project] and [params.file]. *)
Definition download_viewer_html (W : World) (project file : value)
    : M DownloadResult.t :=
  if (negb (truthy project) || eq_str project "error")%bool then
    raise (UserError "Please select a project first")
  else if (negb (truthy file) || eq_str file "error" || eq_str file "")%bool then
    raise (UserError "Please select a file/model to download the viewer for")
  else
    access_token <- get_access_token W integration_name ;;
    html <- viewer_html access_token project file ;;
    ret (DownloadResult.mk html "trimble_connect_viewer.html").

Definition show_trimble_viewer (W : World) (project file : value)
    : M WebResult.t :=
  if (negb (truthy project) || eq_str project "error")%bool then
    ret (WebResult.mk "<h2>Please select a project first</h2>")
  else if (negb (truthy file) || eq_str file "error" || eq_str file "")%bool then
    ret (WebResult.mk "<h2>Please select a file/model to visualize</h2>")
  else
    access_token <- get_access_token W integration_name ;;
    html <- viewer_html access_token project file ;;
    ret (WebResult.mk html).

(** ** Folder trees

    What the remote service holds, seen from a folder: the items the
    folder lists, and under every item the code takes for a folder, what
    that folder lists in turn. *)

#[local] Set Warnings "-register-all".

Inductive tree :=
| File (item : dict)
| Folder (item : dict) (children : list tree).

Definition root_item (t : tree) : dict :=
  match t with
  | File item => item
  | Folder item _ => item
  end.

(** the name of an item as it is printed into paths *)
Definition item_name (item : dict) : string :=
  str (get_or item "name" (Str "")).

(** how the loop classifies an item *)
Definition is_folder (item : dict) : outcome bool :=
  match fst (item_type item) with
  | Ret ty => Ret (String.eqb ty "FOLDER")
  | Raise e => Raise e
  | OutOfFuel => OutOfFuel
  end.

Fixpoint depth (t : tree) : nat :=
  match t with
  | File _ => 0
  | Folder _ children => S (max_list (map depth children))
  end.

Fixpoint count_leaves (t : tree) : nat :=
  match t with
  | File _ => 1
  | Folder _ children => sum_list (map count_leaves children)
  end.

(** The leaves below [t] in depth-first order, children in the order
    listed, each with the names of the folders above it, outermost
    first. [anc] are the names above [t] itself. *)
Fixpoint leaves (anc : list string) (t : tree) : list (list string * dict) :=
  match t with
  | File item => [(anc, item)]
  | Folder item children =>
      flat_map (leaves (anc ++ [item_name item])) children
  end.

(** the path the specification gives a leaf: the names joined by slashes,
    leading slashes removed *)
Definition display_path (anc : list string) (item : dict) : string :=
  PyStr.lstrip "/" (PyStr.join "/" (anc ++ [item_name item])).

(** the record the walk appends for a leaf under the folders [anc] *)
Definition emit {R} (record : value -> value -> string -> dict -> R)
    (leaf : list string * dict) : R :=
  record (get leaf.2 "id") (get_or leaf.2 "name" (Str ""))
    (display_path leaf.1 leaf.2) leaf.2.

(** [current_path] below the folders [anc] *)
Definition prefix_path (anc : list string) : string :=
  PyStr.lstrip "/" (PyStr.join "/" anc).

(** the run raised [e] and [ev] was the last thing it did *)
Definition aborted_at {R} (ev : event) (e : exn) (m : M (list R)) : Prop :=
  fst m = Raise e /\ exists t, snd m = t ++ [ev].

Section Served.

Variable W : World.
Variable headers : string.

(** [t] is what the service answers: a file is an item the loop takes for
    a leaf, a folder is an item it takes for a folder and whose listing
    succeeds with the roots of [children], in this order. *)
Fixpoint served_tree (t : tree) : Prop :=
  match t with
  | File item => is_folder item = Ret false
  | Folder item children =>
      is_folder item = Ret true
      /\ http_array W (folder_url (get item "id")) headers
         = Body (map root_item children)
      /\ fold_right (fun child rest => served_tree child /\ rest) True children
  end.

Definition served (folder_id : value) (children : list tree) : Prop :=
  http_array W (folder_url folder_id) headers = Body (map root_item children)
  /\ fold_right (fun child rest => served_tree child /\ rest) True children.

(** the requests of a walk, in order *)
Fixpoint tree_requests (t : tree) : list event :=
  match t with
  | File _ => []
  | Folder item children =>
      HttpGet (folder_url (get item "id")) headers
      :: flat_map tree_requests children
  end.

Definition requests (folder_id : value) (children : list tree) : list event :=
  HttpGet (folder_url folder_id) headers :: flat_map tree_requests children.

End Served.

(** ** What the specification speaks of *)

(** The project lookup answers with a root folder, below which the
    service holds [children]. *)
Definition project_served (W : World) (project_id : value) (token : string)
    (children : list tree) : Prop :=
  exists proj,
    http_object W (project_url project_id) (bearer token) = Body proj
    /\ truthy (get proj "rootId") = true
    /\ served W (bearer token) (get proj "rootId") children.

(** The records of a walk, as the specification lists them: depth first,
    the children of every folder in the order of its listing. *)
Definition file_records (children : list tree) : list FileRecord.t :=
  map (emit file_record) (flat_map (leaves []) children).

(** The records of a listing, read off the tree: nothing for an empty
    listing; a file contributes its record, then come the records of the
    rest; a folder contributes the records of its own listing, then come
    the records of the rest. *)
Inductive dfs : list string -> list tree -> list FileRecord.t -> Prop :=
| dfs_nil anc : dfs anc [] []
| dfs_file anc item rest out :
    dfs anc rest out ->
    dfs anc (File item :: rest) (emit file_record (anc, item) :: out)
| dfs_folder anc item children rest sub out :
    dfs (anc ++ [item_name item]) children sub ->
    dfs anc rest out ->
    dfs anc (Folder item children :: rest) (sub ++ out).

(** a field that is a string, null or missing *)
Definition string_or_null (v : value) : Prop :=
  match v with
  | None_ | Str _ => True
  | _ => False
  end.

(** The type tag as the specification reads it, for fields that are
    strings, null or missing: the primary [type], or [entityType] when the
    primary carries nothing (missing, null or empty), or the empty tag
    when neither carries anything. *)
Definition type_tag (item : dict) : string :=
  let secondary :=
    match item !! "entityType" with
    | Some (Str s) => s
    | _ => ""
    end in
  match item !! "type" with
  | Some (Str "") => secondary
  | Some (Str s) => s
  | _ => secondary
  end.

(** the text of the template between its markers *)
Definition segment0 : string := substring 0 613 VIEWER_HTML_TEMPLATE.
Definition segment1 : string := substring 629 31 VIEWER_HTML_TEMPLATE.
Definition segment2 : string := substring 674 31 VIEWER_HTML_TEMPLATE.
Definition segment3 : string := substring 717 31 VIEWER_HTML_TEMPLATE.
Definition segment4 : string := substring 762 1162 VIEWER_HTML_TEMPLATE.


(** every underscore of [s] is followed by a character that is not an
    underscore: [s] holds no double underscore and does not end in one *)
Fixpoint quiet (s : string) : bool :=
  match s with
  | EmptyString => true
  | String c s' =>
      if Ascii.eqb c "_" then
        match s' with
        | EmptyString => false
        | String d _ => (negb (Ascii.eqb d "_") && quiet s')%bool
        end
      else quiet s'
  end.

(** ** Further notions used in statements *)

Fixpoint count_folders (t : tree) : nat :=
  match t with
  | File _ => 0
  | Folder _ children => S (sum_list (map count_folders children))
  end.

(** the result of a computation seen through [f], its events kept *)
Definition map_result {A B} (f : A -> B) (m : M A) : M B :=
  (match fst m with
   | Ret a => Ret (f a)
   | Raise e => Raise e
   | OutOfFuel => OutOfFuel
   end, snd m).

(** what the lighter walk keeps of a record *)
Definition entry_of (r : FileRecord.t) : FileEntry.t :=
  FileEntry.mk (FileRecord.id r) (FileRecord.name r) (FileRecord.path r).

(** the option shown for a file *)
Definition file_option (r : FileRecord.t) : OptionListElement.t :=
  OptionListElement.mk (FileRecord.id r) (Str (FileRecord.path r)).




(** [old] starts at no position of [lit] in [lit +:+ rest] *)
Fixpoint clean (old lit rest : string) : bool :=
  match lit with
  | EmptyString => true
  | String c lit' =>
      (negb (String.prefix old (lit +:+ rest)) && clean old lit' rest)%bool
  end.

(** the request for the listing of some folder, sent with [headers] *)
Definition listing (headers : string) (ev : event) : Prop :=
  exists folder_id, ev = HttpGet (folder_url folder_id) headers.

(** a selection the download and the web view accept *)
Definition selected (v : value) : bool :=
  (truthy v && negb (eq_str v "error"))%bool.

(** a selection pair on which neither the download nor the web view gets
    as far as asking for a token *)
Definition turned_away (project file : value) : Prop :=
  forall W,
    (exists msg, download_viewer_html W project file = (Raise (UserError msg), []))
    /\ (exists page, show_trimble_viewer W project file
                     = (Ret (WebResult.mk ("<h2>" +:+ page)), [])).

(** ** Worlds used as test inputs *)

Definition not_found : exn := Exn "HTTPError" "404 Client Error: Not Found".

Definition obj (fields : list (string * value)) : dict := list_to_map fields.

(** A service with one project [P] whose root folder [R] answers
    [root_listing], and whose other folders answer as [folders] says. *)
Definition world_of (root_listing : response (list dict))
    (folders : list (string * response (list dict))) : World :=
  {| access_token := fun _ => Body "T";
     http_object := fun url _ =>
       if String.eqb url (project_url (Str "P"))
       then Body (obj [("id", Str "P"); ("name", Str "Demo"); ("rootId", Str "R")])
       else Failed not_found;
     http_array := fun url _ =>
       if String.eqb url (folder_url (Str "R")) then root_listing
       else
         match find (fun kv => String.eqb url (folder_url (Str kv.1))) folders with
         | Some kv => kv.2
         | None => Failed not_found
         end |}.

Definition a_ifc : dict := obj [("id", Str "1"); ("name", Str "a.ifc"); ("type", Str "FILE")].
Definition b_ifc : dict := obj [("id", Str "2"); ("name", Str "b.ifc"); ("type", Str "FILE")].
Definition sub_folder : dict := obj [("id", Str "S"); ("name", Str "Sub"); ("type", Str "FOLDER")].

(** root: a.ifc, Sub/ ; Sub: b.ifc *)
Definition scenario_world : World :=
  world_of (Body [a_ifc; sub_folder]) [("S", Body [b_ifc])].
Definition scenario_tree : list tree :=
  [File a_ifc; Folder sub_folder [File b_ifc]].

(** the same project with the root listing in the other order *)
Definition scenario_world_rev : World :=
  world_of (Body [sub_folder; a_ifc]) [("S", Body [b_ifc])].
Definition scenario_tree_rev : list tree :=
  [Folder sub_folder [File b_ifc]; File a_ifc].

(** a folder without a name, holding a folder named [A], holding [x] *)
Definition unnamed_folder : dict := obj [("id", Str "U"); ("name", Str ""); ("type", Str "folder")].
Definition folder_A : dict := obj [("id", Str "A"); ("name", Str "A"); ("entityType", Str "Folder")].
Definition x_file : dict := obj [("id", Str "3"); ("name", Str "x"); ("size", Int 42);
                                 ("modifiedOn", Str "2025-12-16T12:34:56Z")].
Definition unnamed_world : World :=
  world_of (Body [unnamed_folder]) [("U", Body [folder_A]); ("A", Body [x_file])].
Definition unnamed_tree : list tree :=
  [Folder unnamed_folder [Folder folder_A [File x_file]]].

(** a file whose name is a single slash *)
Definition slash_file : dict := obj [("id", Str "9"); ("name", Str "/"); ("type", Str "FILE")].
Definition slash_world : World := world_of (Body [slash_file]) [].

(** an item whose type is a number *)
Definition number_tagged : dict :=
  obj [("id", Str "7"); ("name", Str "drawing"); ("type", Int 5)].

(** a project whose metadata has no root folder *)
Definition rootless_world : World :=
  {| access_token := fun _ => Body "T";
     http_object := fun _ _ => Body (obj [("id", Str "P"); ("name", Str "Demo")]);
     http_array := fun _ _ => Body [a_ifc] |}.

(** root: a.ifc, Sub/, b.ifc ; the listing of Sub fails *)
Definition failing_world : World :=
  world_of (Body [a_ifc; sub_folder; b_ifc]) [("S", Failed not_found)].

(** no token can be had *)
Definition offline_world : World :=
  {| access_token := fun _ => Failed (Exn "ConnectionError" "token endpoint unreachable");
     http_object := fun _ _ => Failed not_found;
     http_array := fun _ _ => Failed not_found |}.

(** the second project has no name *)
Definition nameless_project_world : World :=
  {| access_token := fun _ => Body "T";
     http_object := fun _ _ => Failed not_found;
     http_array := fun _ _ =>
       Body [obj [("id", Str "P"); ("name", Str "Demo")]; obj [("id", Str "Q")]] |}.

(** a folder that lists a file and itself *)
Definition loop_folder : dict :=
  obj [("id", Str "R"); ("name", Str "again"); ("type", Str "FOLDER")].
Definition loop_world : World := world_of (Body [a_ifc; loop_folder]) [].


(** * Proofs *)

(** ** Strings *)

#[local] Arguments String.append !_ _ / : simpl nomatch.

Section StrFacts.

Import PyStr.

Lemma append_assoc (s t u : string) : (s +:+ t) +:+ u = s +:+ (t +:+ u).
Proof. induction s as [|c s IH]; simpl; [reflexivity|]. now f_equal. Qed.

Lemma lstrip_lstrip_app chars s t :
  lstrip chars (lstrip chars s +:+ t) = lstrip chars (s +:+ t).
Proof.
  induction s as [|c s IH]; simpl; [reflexivity|].
  destruct (mem c chars) eqn:Hc; [exact IH|].
  simpl. now rewrite Hc.
Qed.

Lemma join_snoc sep l x :
  join sep (l ++ [x]) =
  match l with
  | [] => x
  | _ => join sep l +:+ sep +:+ x
  end.
Proof.
  induction l as [|a l IH]; [reflexivity|].
  destruct l as [|b l]; [reflexivity|].
  change (join sep ((a :: b :: l) ++ [x]))
    with (a +:+ sep +:+ join sep ((b :: l) ++ [x])).
  rewrite IH.
  change (join sep (a :: b :: l)) with (a +:+ sep +:+ join sep (b :: l)).
  now rewrite !append_assoc.
Qed.

Lemma lstrip_no_lead chars c s :
  mem c chars = true -> starts_with c (lstrip chars s) = false.
Proof.
  intros Hc. induction s as [|d s IH]; simpl; [reflexivity|].
  destruct (mem d chars) eqn:Hd; [exact IH|].
  simpl. destruct (Ascii.eqb_spec c d) as [->|]; congruence.
Qed.

Lemma lstrip_empty_iff chars s :
  lstrip chars s = "" <-> only chars s = true.
Proof.
  induction s as [|c s IH]; simpl; [tauto|].
  destruct (mem c chars); simpl; [exact IH|].
  split; discriminate.
Qed.

Lemma only_app chars s t :
  only chars (s +:+ t) = (only chars s && only chars t)%bool.
Proof.
  induction s as [|c s IH]; simpl; [reflexivity|].
  rewrite IH. now rewrite andb_assoc.
Qed.

Lemma only_join chars sep l :
  only chars sep = true ->
  only chars (join sep l) = forallb (only chars) l.
Proof.
  intros Hsep. induction l as [|a l IH]; [reflexivity|].
  destruct l as [|b l].
  - simpl. now rewrite andb_true_r.
  - change (join sep (a :: b :: l)) with (a +:+ sep +:+ join sep (b :: l)).
    rewrite !only_app, Hsep, IH. reflexivity.
Qed.

Lemma lower_upper_ascii c : lower_ascii (upper_ascii c) = lower_ascii c.
Proof. destruct c as [[] [] [] [] [] [] [] []]; reflexivity. Qed.

Lemma upper_lower_ascii c : upper_ascii (lower_ascii c) = upper_ascii c.
Proof. destruct c as [[] [] [] [] [] [] [] []]; reflexivity. Qed.

Lemma lower_upper s : lower (upper s) = lower s.
Proof.
  induction s as [|c s IH]; simpl; [reflexivity|].
  now rewrite lower_upper_ascii, IH.
Qed.

Lemma upper_lower s : upper (lower s) = upper s.
Proof.
  induction s as [|c s IH]; simpl; [reflexivity|].
  now rewrite upper_lower_ascii, IH.
Qed.

(** Comparing the upper-cased tag with an upper-case literal is equality
    up to case. *)
Lemma upper_eq_iff s lit :
  upper lit = lit -> (upper s = lit <-> eq_nocase s lit).
Proof.
  intros Hlit. unfold eq_nocase. split; intros H.
  - rewrite <- H. now rewrite lower_upper.
  - rewrite <- (upper_lower s), H, upper_lower. exact Hlit.
Qed.

End StrFacts.

Lemma item_path_join anc name :
  item_path (PyStr.lstrip "/" (PyStr.join "/" anc)) name
  = PyStr.lstrip "/" (PyStr.join "/" (anc ++ [str name])).
Proof.
  unfold item_path. rewrite lstrip_lstrip_app, join_snoc.
  destruct anc; reflexivity.
Qed.

(** ** The monad *)

Lemma bind_ret {A B} (a : A) (t : list event) (k : A -> M B) :
  bind (Ret a, t) k = (fst (k a), t ++ snd (k a)).
Proof. unfold bind. now destruct (k a). Qed.

Lemma bind_pure {A B} (a : A) (k : A -> M B) : bind (ret a) k = k a.
Proof. unfold ret. rewrite bind_ret. now destruct (k a). Qed.

Lemma item_type_pure item : snd (item_type item) = [].
Proof. unfold item_type. now destruct (or_ _ _). Qed.

Lemma is_folder_item_type item b :
  is_folder item = Ret b ->
  exists ty, item_type item = ret ty /\ String.eqb ty "FOLDER" = b.
Proof.
  unfold is_folder. intros H.
  pose proof (item_type_pure item) as Ht.
  destruct (item_type item) as [[ty| |] t]; simpl in *; try discriminate.
  subst t. exists ty. split; [reflexivity|congruence].
Qed.

Lemma served_tree_all W headers children :
  fold_right (fun child rest => served_tree W headers child /\ rest) True children
  <-> Forall (served_tree W headers) children.
Proof.
  induction children as [|c cs IH]; simpl.
  - split; auto.
  - rewrite IH. split.
    + intros [? ?]. now constructor.
    + intros H. inversion H; subst. now split.
Qed.

Lemma depth_child t children :
  In t children -> depth t <= max_list (map depth children).
Proof.
  intros H. apply max_list_elem_of_le.
  apply list_elem_of_In, in_map, H.
Qed.

(** ** The walk on a served tree *)

Section WalkServed.

Context {R : Type}.
Variable record : value -> value -> string -> dict -> R.
Variable W : World.
Variable headers : string.

Lemma for_items_served rec anc children :
  Forall (served_tree W headers) children ->
  (forall item cs, In (Folder item cs) children ->
     rec (get item "id") (prefix_path (anc ++ [item_name item]))
     = (Ret (map (emit record) (flat_map (leaves (anc ++ [item_name item])) cs)),
        requests headers (get item "id") cs)) ->
  forall files,
    for_items record rec (map root_item children) (prefix_path anc) files
    = (Ret (files ++ map (emit record) (flat_map (leaves anc) children)),
       flat_map (tree_requests headers) children).
Proof.
  induction children as [|c cs IH]; intros Hall Hrec files.
  - simpl. unfold ret. now rewrite app_nil_r.
  - inversion Hall as [|? ? Hc Hcs]; subst.
    assert (Hrec' : forall item cs', In (Folder item cs') cs ->
      rec (get item "id") (prefix_path (anc ++ [item_name item]))
      = (Ret (map (emit record) (flat_map (leaves (anc ++ [item_name item])) cs')),
         requests headers (get item "id") cs')).
    { intros item cs' Hin. apply Hrec. now right. }
    specialize (IH Hcs Hrec').
    destruct c as [item|item sub]; simpl in Hc.
    + destruct (is_folder_item_type _ _ Hc) as (ty & Hty & Hne).
      cbn [map root_item for_items]. rewrite Hty, bind_pure, Hne.
      rewrite IH. cbn [flat_map leaves tree_requests app map].
      rewrite <- app_assoc. cbn [app].
      unfold emit at 2, display_path. cbn [fst snd].
      unfold prefix_path. rewrite item_path_join. reflexivity.
    + destruct Hc as (Hf & _ & _).
      destruct (is_folder_item_type _ _ Hf) as (ty & Hty & Heq).
      cbn [map root_item for_items]. rewrite Hty, bind_pure, Heq.
      unfold prefix_path at 1. rewrite item_path_join.
      change (str (get_or item "name" (Str ""))) with (item_name item).
      fold (prefix_path (anc ++ [item_name item])).
      rewrite (Hrec item sub (or_introl eq_refl)).
      rewrite bind_ret, IH. cbn [fst snd flat_map leaves tree_requests].
      rewrite map_app, <- app_assoc. reflexivity.
Qed.

Theorem list_folder_served fuel :
  forall folder_id children anc,
    served W headers folder_id children ->
    max_list (map depth children) < fuel ->
    list_folder record W headers fuel folder_id (prefix_path anc)
    = (Ret (map (emit record) (flat_map (leaves anc) children)),
       requests headers folder_id children).
Proof.
  induction fuel as [|fuel IH]; intros folder_id children anc [Hget Hall] Hd;
    [lia|].
  apply served_tree_all in Hall.
  cbn [list_folder]. unfold get_array. rewrite Hget.
  cbn [of_response]. rewrite bind_ret.
  rewrite (for_items_served (list_folder record W headers fuel) anc children Hall).
  - reflexivity.
  - intros item cs Hin. apply IH.
    + rewrite Forall_forall in Hall.
      destruct (Hall _ (proj2 (list_elem_of_In _ _) Hin)) as (_ & Hg & Hs).
      now split.
    + pose proof (depth_child _ _ Hin) as Hle. simpl in Hle. lia.
Qed.

End WalkServed.

(** ** The enumerator on a project *)

Lemma list_project_files_served W fuel project_id token children :
  project_served W project_id token children ->
  max_list (map depth children) < fuel ->
  fst (Controller.list_project_files W fuel project_id token)
  = Ret (file_records children).
Proof.
  intros (proj & Hproj & Hroot & Hserved) Hfuel.
  unfold Controller.list_project_files, get_object.
  rewrite Hproj. cbn [of_response]. rewrite bind_ret, Hroot. cbn [negb fst].
  unfold Controller.list_folder.
  change "" with (prefix_path []).
  now rewrite (list_folder_served file_record W (bearer token) fuel _ children []).
Qed.

Lemma Forall2_map_same {A B} (P : B -> A -> Prop) (f : A -> B) (l : list A) :
  (forall a, In a l -> P (f a) a) -> Forall2 P (map f l) l.
Proof.
  induction l as [|a l IH]; intros H; simpl; constructor.
  - apply H. now left.
  - apply IH. intros b Hb. apply H. now right.
Qed.

(** ** Induction on trees *)

Lemma tree_ind' (P : tree -> Prop) :
  (forall item, P (File item)) ->
  (forall item children, Forall P children -> P (Folder item children)) ->
  forall t, P t.
Proof.
  intros Hfile Hfolder. fix IH 1. intros [item|item children].
  - apply Hfile.
  - apply Hfolder.
    induction children as [|c cs IHcs]; constructor; [apply IH|exact IHcs].
Qed.

Lemma length_leaves t : forall anc, length (leaves anc t) = count_leaves t.
Proof.
  induction t as [item|item children IH] using tree_ind'; intros anc;
    [reflexivity|].
  cbn [leaves count_leaves]. generalize (anc ++ [item_name item]) as anc'.
  induction IH as [|c cs Hc _ IHcs]; intros anc'; [reflexivity|].
  cbn [flat_map map sum_list sum_list_with]. rewrite length_app, Hc, IHcs.
  reflexivity.
Qed.

Lemma length_forest_leaves children anc :
  length (flat_map (leaves anc) children)
  = sum_list (map count_leaves children).
Proof.
  induction children as [|c cs IH]; [reflexivity|].
  cbn [flat_map map sum_list sum_list_with].
  now rewrite length_app, length_leaves, IH.
Qed.

Lemma forallb_true_Forall {A} (f : A -> bool) (l : list A) :
  forallb f l = true <-> Forall (fun x => f x = true) l.
Proof.
  induction l as [|a l IH]; simpl.
  - split; auto.
  - rewrite andb_true_iff, IH. split.
    + intros [? ?]. now constructor.
    + intros H. inversion H; subst. now split.
Qed.

Lemma display_path_empty_iff anc item :
  display_path anc item = ""
  <-> Forall (fun n => PyStr.only "/" n = true) (anc ++ [item_name item]).
Proof.
  unfold display_path.
  rewrite lstrip_empty_iff, only_join by reflexivity.
  apply forallb_true_Forall.
Qed.



(** * The claims *)



(** C2, as stated, fails: a file named by a single slash, directly under
    the root, is one leaf with a non-empty name, and the one record
    returned for it has the empty path. *)
Lemma C2_counterexample :
  project_served slash_world (Str "P") "T" [File slash_file]
  /\ item_name slash_file <> ""
  /\ exists r,
       fst (Controller.list_project_files slash_world 1 (Str "P") "T") = Ret [r]
       /\ FileRecord.name r = Str "/"
       /\ FileRecord.path r = "".
Proof.
  split; [|split].
  - exists (obj [("id", Str "P"); ("name", Str "Demo"); ("rootId", Str "R")]).
    repeat split; vm_compute; reflexivity.
  - vm_compute. discriminate.
  - eexists. vm_compute. repeat split.
Qed.

(** C2, amended. For a folder tree with N leaves in all, at any depth, the
    enumerator returns exactly N records, and the path of a record is
    empty exactly when the item's own name and the names of all folders
    above it consist of slashes only (the empty name among them). *)
Theorem C2_count_and_nonempty_paths W fuel project_id token children :
  project_served W project_id token children ->
  max_list (map depth children) < fuel ->
  exists out,
    fst (Controller.list_project_files W fuel project_id token) = Ret out
    /\ length out = sum_list (map count_leaves children)
    /\ Forall2 (fun r leaf =>
         FileRecord.path r = ""
         <-> Forall (fun n => PyStr.only "/" n = true)
               (leaf.1 ++ [item_name leaf.2]))
       out (flat_map (leaves []) children).
Proof.
  intros Hserved Hfuel. exists (file_records children). split; [|split].
  - exact (list_project_files_served _ _ _ _ _ Hserved Hfuel).
  - unfold file_records. now rewrite length_map, length_forest_leaves.
  - apply Forall2_map_same. intros [anc item] _.
    cbn [emit file_record FileRecord.path fst snd].
    apply display_path_empty_iff.
Qed.

(** C2 (amended) at the two-file project. *)
Lemma C2_witness :
  exists out,
    fst (Controller.list_project_files scenario_world 2 (Str "P") "T") = Ret out
    /\ length out = sum_list (map count_leaves scenario_tree)
    /\ Forall2 (fun r leaf =>
         FileRecord.path r = ""
         <-> Forall (fun n => PyStr.only "/" n = true)
               (leaf.1 ++ [item_name leaf.2]))
       out (flat_map (leaves []) scenario_tree).
Proof.
  apply (C2_count_and_nonempty_paths scenario_world 2 (Str "P") "T" scenario_tree).
  - exists (obj [("id", Str "P"); ("name", Str "Demo"); ("rootId", Str "R")]).
    repeat split; vm_compute; reflexivity.
  - vm_compute. lia.
Defined.

(** ** Order of the output *)

Lemma dfs_leaves children :
  forall anc,
    dfs anc children (map (emit file_record) (flat_map (leaves anc) children)).
Proof.
  assert (Hall : Forall (fun t => forall anc cs,
            t = Folder (root_item t) cs ->
            dfs (anc ++ [item_name (root_item t)]) cs
              (map (emit file_record)
                 (flat_map (leaves (anc ++ [item_name (root_item t)])) cs)))
          children).
  { induction children as [|t ts IH]; constructor; [|exact IH].
    induction t as [item|item cs IHt] using tree_ind'; intros anc cs' Heq;
      [discriminate|].
    injection Heq as <-. cbn [root_item].
    generalize (anc ++ [item_name item]) as anc'.
    induction IHt as [|c cs Hc _ IHcs]; intros anc'; [constructor|].
    destruct c as [it|it sub]; cbn [flat_map leaves map app].
    - constructor. apply IHcs.
    - rewrite map_app. constructor; [|apply IHcs].
      now apply (Hc anc' sub). }
  induction Hall as [|t ts Ht _ IH]; intros anc; [constructor|].
  destruct t as [it|it sub]; cbn [flat_map leaves map app].
  - constructor. apply IH.
  - rewrite map_app. constructor; [|apply IH].
    now apply (Ht anc sub).
Qed.

(** C6. The output is the depth-first concatenation of the results, the
    children of every folder taken in the order of its listing, with no
    sorting. For the project whose root lists the file a.ifc and the
    folder Sub, which holds b.ifc, exactly two records come back, with
    paths a.ifc and Sub/b.ifc in this order; with the root listing
    reversed they come back in the reverse order. *)
Theorem C6_depth_first_listing_order :
  (forall W fuel project_id token children,
     project_served W project_id token children ->
     max_list (map depth children) < fuel ->
     exists out,
       fst (Controller.list_project_files W fuel project_id token) = Ret out
       /\ dfs [] children out)
  /\ (exists r1 r2,
        fst (Controller.list_project_files scenario_world 2 (Str "P") "T")
        = Ret [r1; r2]
        /\ FileRecord.path r1 = "a.ifc" /\ FileRecord.path r2 = "Sub/b.ifc")
  /\ (exists r1 r2,
        fst (Controller.list_project_files scenario_world_rev 2 (Str "P") "T")
        = Ret [r1; r2]
        /\ FileRecord.path r1 = "Sub/b.ifc" /\ FileRecord.path r2 = "a.ifc").
Proof.
  split; [|split].
  - intros W fuel project_id token children Hserved Hfuel.
    exists (file_records children). split.
    + exact (list_project_files_served _ _ _ _ _ Hserved Hfuel).
    + apply dfs_leaves.
  - do 2 eexists. vm_compute. repeat split.
  - do 2 eexists. vm_compute. repeat split.
Qed.

(** C6 at the project whose root lists the folder first. *)
Lemma C6_witness :
  exists out,
    fst (Controller.list_project_files scenario_world_rev 2 (Str "P") "T") = Ret out
    /\ dfs [] scenario_tree_rev out.
Proof.
  apply (proj1 C6_depth_first_listing_order
           scenario_world_rev 2 (Str "P") "T" scenario_tree_rev).
  - exists (obj [("id", Str "P"); ("name", Str "Demo"); ("rootId", Str "R")]).
    repeat split; vm_compute; reflexivity.
  - vm_compute. lia.
Defined.



(** ** Classification *)

Lemma item_type_tag item :
  string_or_null (get item "type") ->
  string_or_null (get item "entityType") ->
  item_type item = ret (PyStr.upper (type_tag item)).
Proof.
  unfold item_type, type_tag, get, or_.
  destruct (item !! "type") as [[| | |[|c s]]|];
    destruct (item !! "entityType") as [[| | |[|d t]]|];
    simpl; intros H1 H2; try contradiction; reflexivity.
Qed.

Lemma is_folder_tag item :
  string_or_null (get item "type") ->
  string_or_null (get item "entityType") ->
  is_folder item = Ret (String.eqb (PyStr.upper (type_tag item)) "FOLDER").
Proof.
  intros H1 H2. unfold is_folder. now rewrite item_type_tag.
Qed.

(** C3, as stated, fails: "every other value makes the item a leaf" does
    not hold for a tag that is not a string. An item whose type is the
    number 5 is neither recursed into nor emitted; the classification
    raises, and the walk of a folder listing it after a.ifc returns
    nothing. *)
Lemma C3_counterexample :
  is_folder number_tagged
  = Raise (AttributeError "'int' object has no attribute 'upper'")
  /\ Controller.list_project_files
       (world_of (Body [a_ifc; number_tagged]) []) 1 (Str "P") "T"
     = (Raise (AttributeError "'int' object has no attribute 'upper'"),
        [HttpGet (project_url (Str "P")) "Bearer T";
         HttpGet (folder_url (Str "R")) "Bearer T"]).
Proof. split; vm_compute; reflexivity. Qed.

(** C3, amended. For every listed item whose [type] and [entityType] are
    strings, null or missing, the enumerator takes the item for a folder
    if and only if its type tag, which is the primary type or else the
    [entityType] when the primary is missing, null or empty, equals
    [FOLDER] up to case; [folder], [Folder] and [FOLDER] are such tags.
    Every other such item, with a null, missing or empty tag among them,
    is a leaf: its record is appended and no request is made for it. A
    folder is recursed into with its id and path. *)
Theorem C3_folder_iff_tag_is_FOLDER (item : dict) :
  string_or_null (get item "type") ->
  string_or_null (get item "entityType") ->
  (is_folder item = Ret true <-> PyStr.eq_nocase (type_tag item) "FOLDER")
  /\ (is_folder item = Ret false <-> ~ PyStr.eq_nocase (type_tag item) "FOLDER")
  /\ (forall ty, In ty ["folder"; "Folder"; "FOLDER"] ->
        type_tag item = ty -> is_folder item = Ret true)
  /\ (type_tag item = "" -> is_folder item = Ret false)
  /\ (forall R (record : value -> value -> string -> dict -> R) rec path files,
        let name := get_or item "name" (Str "") in
        for_items record rec [item] path files
        = if String.eqb (PyStr.upper (type_tag item)) "FOLDER"
          then sub <- rec (get item "id") (item_path path name) ;;
               ret (files ++ sub)
          else (Ret (files ++ [record (get item "id") name
                                 (item_path path name) item]), [])).
Proof.
  intros H1 H2.
  pose proof (is_folder_tag item H1 H2) as Hf.
  pose proof (upper_eq_iff (type_tag item) "FOLDER" eq_refl) as Hci.
  rewrite Hf.
  destruct (String.eqb_spec (PyStr.upper (type_tag item)) "FOLDER") as [Heq|Hne].
  - split; [|split; [|split; [|split]]].
    + split; [intros _; now apply Hci|reflexivity].
    + split; [discriminate|]. intros Hn. exfalso. now apply Hn, Hci.
    + reflexivity.
    + intros Hempty. rewrite Hempty in Heq. discriminate.
    + intros R record rec path files name.
      cbn [for_items]. rewrite item_type_tag, bind_pure by assumption.
      apply String.eqb_eq in Heq. rewrite Heq. reflexivity.
  - split; [|split; [|split; [|split]]].
    + split; [discriminate|]. intros Hc. exfalso. now apply Hne, Hci.
    + split; [intros _ Hc; now apply Hne, Hci|reflexivity].
    + intros ty Hin Hty. exfalso. apply Hne. rewrite Hty.
      destruct Hin as [<-|[<-|[<-|[]]]]; reflexivity.
    + reflexivity.
    + intros R record rec path files name.
      cbn [for_items]. rewrite item_type_tag, bind_pure by assumption.
      apply String.eqb_neq in Hne. rewrite Hne. reflexivity.
Qed.

(** C3 (amended) at an item tagged through [entityType] only. *)
Lemma C3_witness :
  (is_folder folder_A = Ret true <-> PyStr.eq_nocase (type_tag folder_A) "FOLDER")
  /\ (is_folder folder_A = Ret false <-> ~ PyStr.eq_nocase (type_tag folder_A) "FOLDER")
  /\ (forall ty, In ty ["folder"; "Folder"; "FOLDER"] ->
        type_tag folder_A = ty -> is_folder folder_A = Ret true)
  /\ (type_tag folder_A = "" -> is_folder folder_A = Ret false)
  /\ (forall R (record : value -> value -> string -> dict -> R) rec path files,
        let name := get_or folder_A "name" (Str "") in
        for_items record rec [folder_A] path files
        = if String.eqb (PyStr.upper (type_tag folder_A)) "FOLDER"
          then sub <- rec (get folder_A "id") (item_path path name) ;;
               ret (files ++ sub)
          else (Ret (files ++ [record (get folder_A "id") name
                                 (item_path path name) folder_A]), [])).
Proof.
  apply (C3_folder_iff_tag_is_FOLDER folder_A); vm_compute; exact I.
Defined.

(** ** Failures *)

Lemma falsy_root_id (proj : dict) :
  proj !! "rootId" = None \/ proj !! "rootId" = Some None_
  \/ proj !! "rootId" = Some (Str "") ->
  truthy (get proj "rootId") = false.
Proof. unfold get. now intros [-> | [-> | ->]]. Qed.

(** C5, as stated, fails on the error that is raised: with no root folder
    in the project metadata the enumerator does not raise
    IntegrationError("root folder not found") but a plain Exception with
    another message. *)
Lemma C5_counterexample :
  fst (Controller.list_project_files rootless_world 1 (Str "P") "T")
  <> Raise (Exn "IntegrationError" "root folder not found")
  /\ fst (Controller.list_project_files rootless_world 1 (Str "P") "T")
     = Raise (Exn "Exception" "Could not find root folder ID for this project.").
Proof. split; vm_compute; [discriminate|reflexivity]. Qed.

(** C5, amended. If the project-metadata lookup yields no root folder
    identifier (rootId missing, null or empty), the enumerator raises
    Exception("Could not find root folder ID for this project.") at once:
    the project lookup is the only request made, no folder listing is
    requested and nothing is tried again. *)
Theorem C5_no_root_folder W fuel project_id token (proj : dict) :
  http_object W (project_url project_id) (bearer token) = Body proj ->
  proj !! "rootId" = None \/ proj !! "rootId" = Some None_
  \/ proj !! "rootId" = Some (Str "") ->
  Controller.list_project_files W fuel project_id token
  = (Raise (Exception "Could not find root folder ID for this project."),
     [HttpGet (project_url project_id) (bearer token)]).
Proof.
  intros Hproj Hroot. apply falsy_root_id in Hroot.
  unfold Controller.list_project_files, get_object.
  rewrite Hproj. cbn [of_response]. rewrite bind_ret, Hroot. reflexivity.
Qed.

(** C5 (amended) at a project whose metadata has no [rootId]. *)
Lemma C5_witness :
  Controller.list_project_files rootless_world 4 (Str "P") "T"
  = (Raise (Exception "Could not find root folder ID for this project."),
     [HttpGet (project_url (Str "P")) (bearer "T")]).
Proof.
  apply (C5_no_root_folder rootless_world 4 (Str "P") "T"
           (obj [("id", Str "P"); ("name", Str "Demo")])).
  - vm_compute. reflexivity.
  - left. vm_compute. reflexivity.
Defined.

Section WalkFailed.

Context {R : Type}.
Variable record : value -> value -> string -> dict -> R.
Variable W : World.
Variable headers : string.
Variable ev : event.
Variable e : exn.

Lemma for_items_failed rec :
  (forall folder_id path,
     In ev (snd (rec folder_id path)) -> aborted_at ev e (rec folder_id path)) ->
  forall items path files,
    In ev (snd (for_items record rec items path files)) ->
    aborted_at ev e (for_items record rec items path files).
Proof.
  intros Hrec. induction items as [|item rest IH]; intros path files Hin.
  - destruct Hin.
  - cbn [for_items] in *.
    pose proof (item_type_pure item) as Hpure.
    destruct (item_type item) as [[ty|e'|] t]; cbn [snd] in Hpure; subst t;
      [|now destruct Hin..].
    change (@pair (outcome string) (list event) (Ret ty) []) with (ret ty) in *.
    rewrite bind_pure in Hin |- *.
    destruct (String.eqb ty "FOLDER"); [|now apply IH].
    specialize (Hrec (get item "id")
                     (item_path path (get_or item "name" (Str "")))).
    destruct (rec (get item "id") (item_path path (get_or item "name" (Str ""))))
      as [[sub|e'|] t1].
    + rewrite bind_ret in *. cbn [fst snd] in *.
      apply in_app_or in Hin as [Hin|Hin].
      * destruct (Hrec Hin) as [Hf _]. discriminate.
      * destruct (IH _ _ Hin) as [Hf [t Ht]]. split; [exact Hf|].
        exists (t1 ++ t). now rewrite Ht, app_assoc.
    + cbn [bind fst snd] in *. exact (Hrec Hin).
    + cbn [bind fst snd] in *. destruct (Hrec Hin) as [Hf _]. discriminate.
Qed.

Lemma list_folder_failed fuel :
  forall folder_id path,
    (forall url auth, ev = HttpGet url auth -> http_array W url auth = Failed e) ->
    In ev (snd (list_folder record W headers fuel folder_id path)) ->
    aborted_at ev e (list_folder record W headers fuel folder_id path).
Proof.
  induction fuel as [|fuel IH]; intros folder_id path Hfail Hin;
    [destruct Hin|].
  cbn [list_folder] in *. unfold get_array in *.
  destruct (http_array W (folder_url folder_id) headers) as [e0|items] eqn:Hget;
    cbn [of_response] in *.
  - cbn [bind snd fst] in *. destruct Hin as [Heq|[]].
    symmetry in Heq. rewrite (Hfail _ _ Heq) in Hget.
    injection Hget as He. unfold aborted_at. cbn [fst snd].
    split; [now rewrite He|]. exists []. now rewrite Heq.
  - rewrite bind_ret in *. cbn [fst snd] in *.
    destruct Hin as [Heq|Hin].
    + symmetry in Heq. rewrite (Hfail _ _ Heq) in Hget. discriminate.
    + destruct (for_items_failed (list_folder record W headers fuel)
                  (fun f p => IH f p Hfail) items path [] Hin) as [Hf [t Ht]].
      split; [exact Hf|].
      exists (HttpGet (folder_url folder_id) headers :: t). now rewrite Ht.
Qed.

End WalkFailed.

Lemma project_url_not_folder_url project_id folder_id :
  project_url project_id <> folder_url folder_id.
Proof.
  unfold project_url, folder_url. intros H.
  apply String.app_inj in H. discriminate.
Qed.

(** C4. If a folder-listing request made during the enumeration of a
    project fails, whichever folder of the tree it is for, the enumerator
    returns no records at all: it raises the error of that request, and
    the failed request is the last thing it did. *)
Theorem C4_all_or_nothing W fuel project_id token folder_id auth e :
  In (HttpGet (folder_url folder_id) auth)
     (snd (Controller.list_project_files W fuel project_id token)) ->
  http_array W (folder_url folder_id) auth = Failed e ->
  fst (Controller.list_project_files W fuel project_id token) = Raise e
  /\ (forall out,
        fst (Controller.list_project_files W fuel project_id token) <> Ret out)
  /\ exists t,
       snd (Controller.list_project_files W fuel project_id token)
       = t ++ [HttpGet (folder_url folder_id) auth].
Proof.
  intros Hin Hfail.
  cut (aborted_at (HttpGet (folder_url folder_id) auth) e
         (Controller.list_project_files W fuel project_id token)).
  { intros [Hf Ht]. repeat split; [exact Hf| |exact Ht].
    intros out Hout. rewrite Hf in Hout. discriminate. }
  unfold Controller.list_project_files, get_object in *.
  destruct (http_object W (project_url project_id) (bearer token))
    as [e0|proj]; cbn [of_response] in *.
  - cbn [bind snd] in Hin. destruct Hin as [Heq|[]].
    exfalso. apply (project_url_not_folder_url project_id folder_id).
    congruence.
  - rewrite bind_ret in *. cbn [fst snd] in *.
    destruct Hin as [Heq|Hin].
    { exfalso. apply (project_url_not_folder_url project_id folder_id).
      congruence. }
    destruct (negb (truthy (get proj "rootId"))); [destruct Hin|].
    unfold Controller.list_folder in *.
    destruct (list_folder_failed file_record W (bearer token)
                (HttpGet (folder_url folder_id) auth) e fuel
                (get proj "rootId") "") as [Hf [t Ht]]; [|exact Hin|].
    + intros url auth' Heq.
      replace url with (folder_url folder_id) by congruence.
      replace auth' with auth by congruence. exact Hfail.
    + split; [exact Hf|].
      exists (HttpGet (project_url project_id) (bearer token) :: t).
      now rewrite Ht.
Qed.

(** C4 at a project where the listing of the second of three items fails. *)
Lemma C4_witness :
  fst (Controller.list_project_files failing_world 3 (Str "P") "T")
  = Raise not_found
  /\ (forall out,
        fst (Controller.list_project_files failing_world 3 (Str "P") "T")
        <> Ret out)
  /\ exists t,
       snd (Controller.list_project_files failing_world 3 (Str "P") "T")
       = t ++ [HttpGet (folder_url (Str "S")) "Bearer T"].
Proof.
  apply (C4_all_or_nothing failing_world 3 (Str "P") "T" (Str "S") "Bearer T").
  - vm_compute. right. right. left. reflexivity.
  - vm_compute. reflexivity.
Defined.

(** C10. With no project selected ([params.project] falsy: null, empty,
    zero or false), [get_project_files] returns exactly one option,
    labelled "Select a Project First", and does nothing else: no token is
    retrieved and no request is made. *)
Theorem C10_no_project_selected W fuel project :
  truthy project = false ->
  get_project_files W fuel project
  = (Ret [OptionListElement.mk (Str "Select a Project First")
            (Str "Select a Project First")],
     []).
Proof. intros H. unfold get_project_files. now rewrite H. Qed.

(** C10 at a null and at an empty selection. *)
Lemma C10_witness :
  get_project_files scenario_world 2 None_
  = (Ret [OptionListElement.mk (Str "Select a Project First")
            (Str "Select a Project First")],
     [])
  /\ get_project_files scenario_world 2 (Str "")
     = (Ret [OptionListElement.mk (Str "Select a Project First")
               (Str "Select a Project First")],
        []).
Proof.
  split.
  - apply (C10_no_project_selected scenario_world 2 None_). reflexivity.
  - apply (C10_no_project_selected scenario_world 2 (Str "")). reflexivity.
Defined.

(** ** The option lists never fail *)

Lemma try_except_raise {A} (m : M A) (h : exn -> M A) e t :
  m = (Raise e, t) -> try_except m h = (fst (h e), t ++ snd (h e)).
Proof. intros ->. unfold try_except. now destruct (h e). Qed.

Lemma try_except_never_raises {A} (m : M A) (h : exn -> A) e :
  fst (try_except m (fun e' => ret (h e'))) <> Raise e.
Proof. destruct m as [[a|e'|] t]; simpl; discriminate. Qed.

(** C9. Whatever exception is raised while a selection list is being
    populated, [get_trimble_projects] and [get_project_files] catch it and
    return a list of exactly one placeholder option, whose label is the
    error message behind a fixed prefix; neither ever raises. A failed
    token retrieval is one such exception. *)
Theorem C9_failure_becomes_placeholder :
  (forall W e t,
     load_projects W = (Raise e, t) ->
     get_trimble_projects W
     = (Ret [OptionListElement.mk (Str "error")
               (Str ("Error loading projects: " +:+ exn_str e))], t))
  /\ (forall W fuel project e t,
        truthy project = true ->
        load_files W fuel project = (Raise e, t) ->
        get_project_files W fuel project
        = (Ret [OptionListElement.mk (Str "error")
                  (Str ("Error loading files: " +:+ exn_str e))], t))
  /\ (forall W e, fst (get_trimble_projects W) <> Raise e)
  /\ (forall W fuel project e, fst (get_project_files W fuel project) <> Raise e)
  /\ (forall W fuel project e,
        truthy project = true ->
        access_token W integration_name = Failed e ->
        get_trimble_projects W
        = (Ret [OptionListElement.mk (Str "error")
                  (Str ("Error loading projects: " +:+ exn_str e))],
           [GetAccessToken integration_name])
        /\ get_project_files W fuel project
           = (Ret [OptionListElement.mk (Str "error")
                     (Str ("Error loading files: " +:+ exn_str e))],
              [GetAccessToken integration_name])).
Proof.
  split; [|split; [|split; [|split]]].
  - intros W e t H. unfold get_trimble_projects.
    rewrite (try_except_raise _ _ e t H). cbn [ret fst snd].
    now rewrite app_nil_r.
  - intros W fuel project e t Hp H. unfold get_project_files.
    rewrite Hp. cbn [negb].
    rewrite (try_except_raise _ _ e t H). cbn [ret fst snd].
    now rewrite app_nil_r.
  - intros W e. unfold get_trimble_projects.
    apply (try_except_never_raises (load_projects W)
             (fun e' => [OptionListElement.mk (Str "error")
                (Str ("Error loading projects: " +:+ exn_str e'))])).
  - intros W fuel project e. unfold get_project_files.
    destruct (negb (truthy project)); [discriminate|].
    apply (try_except_never_raises (load_files W fuel project)
             (fun e' => [OptionListElement.mk (Str "error")
                (Str ("Error loading files: " +:+ exn_str e'))])).
  - intros W fuel project e Hp Htok. split.
    + unfold get_trimble_projects, load_projects, get_access_token.
      rewrite Htok. reflexivity.
    + unfold get_project_files, load_files, get_access_token.
      rewrite Hp, Htok. reflexivity.
Qed.

(** C9 at a project without a name and at a failing folder listing. *)
Lemma C9_witness :
  get_trimble_projects nameless_project_world
  = (Ret [OptionListElement.mk (Str "error")
            (Str ("Error loading projects: " +:+ exn_str (KeyError "name")))],
     [GetAccessToken integration_name; HttpGet projects_url "Bearer T"])
  /\ get_project_files failing_world 3 (Str "P")
     = (Ret [OptionListElement.mk (Str "error")
               (Str ("Error loading files: " +:+ exn_str not_found))],
        [GetAccessToken integration_name;
         HttpGet (project_url (Str "P")) "Bearer T";
         HttpGet (folder_url (Str "R")) "Bearer T";
         HttpGet (folder_url (Str "S")) "Bearer T"]).
Proof.
  split.
  - apply (proj1 C9_failure_becomes_placeholder nameless_project_world).
    vm_compute. reflexivity.
  - apply (proj1 (proj2 C9_failure_becomes_placeholder) failing_world 3 (Str "P")).
    + reflexivity.
    + vm_compute. reflexivity.
Defined.

(** ** The viewer page *)

Lemma prefix_cons a s1 b s2 :
  String.prefix (String a s1) (String b s2)
  = if Ascii.eqb b a then String.prefix s1 s2 else false.
Proof.
  cbn [String.prefix].
  destruct (ascii_dec a b) as [->|Hne].
  - now rewrite Ascii.eqb_refl.
  - destruct (Ascii.eqb_spec b a); [congruence|reflexivity].
Qed.

Section ReplaceFacts.

Variable new : string.
(** a marker: two underscores and more *)
Variable tail : string.
#[local] Abbreviation marker := (String "_" (String "_" tail)).

Lemma quiet_tail c s : quiet (String c s) = true -> quiet s = true.
Proof.
  simpl. destruct (Ascii.eqb c "_"); [|auto].
  destruct s as [|d s]; [discriminate|].
  now intros [_ H]%andb_true_iff.
Qed.

Lemma quiet_no_prefix c s rest :
  quiet (String c s) = true ->
  String.prefix marker (String c s +:+ rest) = false.
Proof.
  change (String c s +:+ rest) with (String c (s +:+ rest)).
  rewrite prefix_cons. cbn [quiet].
  destruct (Ascii.eqb c "_"); [|reflexivity].
  destruct s as [|d s]; [discriminate|].
  change (String d s +:+ rest) with (String d (s +:+ rest)).
  rewrite prefix_cons. intros [Hd _]%andb_true_iff.
  destruct (Ascii.eqb d "_"); [discriminate|reflexivity].
Qed.

Lemma replace_from_quiet s rest :
  quiet s = true ->
  replace_from marker new 0 (s +:+ rest) = s +:+ replace_from marker new 0 rest.
Proof.
  induction s as [|c s IH]; intros Hq; [reflexivity|].
  change (String c s +:+ rest) with (String c (s +:+ rest)) at 1.
  cbn [replace_from].
  change (String c (s +:+ rest)) with (String c s +:+ rest).
  rewrite (quiet_no_prefix c s rest Hq).
  simpl. f_equal. apply IH. exact (quiet_tail c s Hq).
Qed.


Lemma prefix_app s rest : String.prefix s (s +:+ rest) = true.
Proof.
  induction s as [|c s IH]; [now destruct rest|].
  change (String c s +:+ rest) with (String c (s +:+ rest)).
  now rewrite prefix_cons, Ascii.eqb_refl.
Qed.

Lemma replace_from_skip s rest :
  replace_from marker new (String.length s) (s +:+ rest)
  = replace_from marker new 0 rest.
Proof.
  induction s as [|c s IH]; [reflexivity|]. simpl. exact IH.
Qed.

Lemma replace_from_here rest :
  replace_from marker new 0 (marker +:+ rest)
  = new +:+ replace_from marker new 0 rest.
Proof.
  change (marker +:+ rest) with (String "_" (String "_" tail +:+ rest)) at 1.
  cbn [replace_from].
  change (String "_" (String "_" tail +:+ rest)) with (marker +:+ rest).
  rewrite prefix_app. f_equal.
  change (String.length marker - 1) with (String.length (String "_" tail) - 0).
  rewrite Nat.sub_0_r. apply replace_from_skip.
Qed.

Lemma replace_from_none s :
  occurrences marker s = 0 -> replace_from marker new 0 s = s.
Proof.
  induction s as [|c s IH]; [reflexivity|].
  cbn [occurrences replace_from].
  destruct (String.prefix marker (String c s)); [discriminate|].
  simpl. intros H. f_equal. exact (IH H).
Qed.

End ReplaceFacts.



Lemma replace_marker tail new s :
  replace (String "_" (String "_" tail)) new s
  = replace_from (String "_" (String "_" tail)) new 0 s.
Proof. reflexivity. Qed.

Lemma template_segments :
  VIEWER_HTML_TEMPLATE
  = segment0 +:+ "__ACCESS_TOKEN__" +:+ segment1 +:+ "__PROJECT_ID__"
    +:+ segment2 +:+ "__MODEL_ID__" +:+ segment3 +:+ "__VERSION_ID__"
    +:+ segment4.
Proof. vm_compute. reflexivity. Qed.

Ltac by_computation := first [assumption | vm_compute; reflexivity].

(** Arguments in which every underscore is followed by another character
    land between the segments of the template, and no marker is left. *)
Lemma viewer_html_quiet a p m v :
  quiet a = true -> quiet p = true -> quiet m = true ->
  quiet (or_empty v) = true ->
  build_trimble_viewer_html a p m v
  = segment0 +:+ a +:+ segment1 +:+ p +:+ segment2 +:+ m +:+ segment3
    +:+ or_empty v +:+ segment4.
Proof.
  intros Ha Hp Hm Hv. unfold build_trimble_viewer_html.
  rewrite template_segments, !replace_marker.
  rewrite (replace_from_quiet a _ segment0) by by_computation.
  rewrite (replace_from_here a), (replace_from_none a) by by_computation.
  rewrite (replace_from_quiet p _ segment0) by by_computation.
  rewrite (replace_from_quiet p _ a) by by_computation.
  rewrite (replace_from_quiet p _ segment1) by by_computation.
  rewrite (replace_from_here p), (replace_from_none p) by by_computation.
  rewrite (replace_from_quiet m _ segment0) by by_computation.
  rewrite (replace_from_quiet m _ a) by by_computation.
  rewrite (replace_from_quiet m _ segment1) by by_computation.
  rewrite (replace_from_quiet m _ p) by by_computation.
  rewrite (replace_from_quiet m _ segment2) by by_computation.
  rewrite (replace_from_here m), (replace_from_none m) by by_computation.
  rewrite (replace_from_quiet (or_empty v) _ segment0) by by_computation.
  rewrite (replace_from_quiet (or_empty v) _ a) by by_computation.
  rewrite (replace_from_quiet (or_empty v) _ segment1) by by_computation.
  rewrite (replace_from_quiet (or_empty v) _ p) by by_computation.
  rewrite (replace_from_quiet (or_empty v) _ segment2) by by_computation.
  rewrite (replace_from_quiet (or_empty v) _ m) by by_computation.
  rewrite (replace_from_quiet (or_empty v) _ segment3) by by_computation.
  rewrite (replace_from_here (or_empty v)), (replace_from_none (or_empty v))
    by by_computation.
  reflexivity.
Qed.




(** * Further properties of the code *)

(** ** The two copies of the walk *)

Section WalkMap.

Context {R R' : Type}.
Variable record : value -> value -> string -> dict -> R.
Variable f : R -> R'.
Variable W : World.
Variable headers : string.

Lemma for_items_map rec rec' :
  (forall folder_id path,
     rec' folder_id path = map_result (map f) (rec folder_id path)) ->
  forall items path files,
    for_items (fun i n p it => f (record i n p it)) rec' items path (map f files)
    = map_result (map f) (for_items record rec items path files).
Proof.
  intros Hrec. induction items as [|item rest IH]; intros path files;
    [reflexivity|].
  cbn [for_items].
  pose proof (item_type_pure item) as Hpure.
  destruct (item_type item) as [[ty|e|] t]; cbn [snd] in Hpure; subst t;
    [|reflexivity..].
  change (@pair (outcome string) (list event) (Ret ty) []) with (ret ty).
  rewrite !bind_pure.
  destruct (String.eqb ty "FOLDER").
  - rewrite Hrec.
    destruct (rec (get item "id") (item_path path (get_or item "name" (Str ""))))
      as [[sub|e|] t]; [|reflexivity..].
    unfold map_result at 1. cbn [fst snd]. rewrite !bind_ret.
    rewrite <- map_app, IH. reflexivity.
  - rewrite <- IH, map_app. reflexivity.
Qed.

Lemma list_folder_map fuel :
  forall folder_id path,
    list_folder (fun i n p it => f (record i n p it)) W headers fuel folder_id path
    = map_result (map f) (list_folder record W headers fuel folder_id path).
Proof.
  induction fuel as [|fuel IH]; intros folder_id path; [reflexivity|].
  cbn [list_folder]. unfold get_array.
  destruct (http_array W (folder_url folder_id) headers) as [e|items];
    cbn [of_response]; [reflexivity|].
  rewrite !bind_ret.
  change (@nil R') with (map f []).
  rewrite (for_items_map (list_folder record W headers fuel) _ IH items path []).
  reflexivity.
Qed.

End WalkMap.

Lemma list_folder_entries W headers fuel folder_id path :
  list_folder file_entry W headers fuel folder_id path
  = map_result (map entry_of)
      (Controller.list_folder W headers fuel folder_id path).
Proof.
  exact (list_folder_map file_record entry_of W headers fuel folder_id path).
Qed.


Lemma get_project_files_after_enumerator W fuel project token :
  truthy project = true ->
  access_token W integration_name = Body token ->
  (forall records,
     fst (Controller.list_project_files W fuel project token) = Ret records ->
     get_project_files W fuel project
     = (Ret (or_fallback (map file_option records)
               (OptionListElement.mk (Str "") (Str "No files found in project"))),
        GetAccessToken integration_name
        :: snd (Controller.list_project_files W fuel project token)))
  /\ (forall e,
        fst (Controller.list_project_files W fuel project token) = Raise e ->
        (forall proj,
           http_object W (project_url project) (bearer token) = Body proj ->
           truthy (get proj "rootId") = true) ->
        get_project_files W fuel project
        = (Ret [OptionListElement.mk (Str "error")
                  (Str ("Error loading files: " +:+ exn_str e))],
           GetAccessToken integration_name
           :: snd (Controller.list_project_files W fuel project token))).
Proof.
  intros Hp Htok.
  unfold get_project_files, load_files, Controller.list_project_files,
    get_access_token, get_object.
  rewrite Hp, Htok. cbn [negb of_response]. rewrite bind_ret.
  destruct (http_object W (project_url project) (bearer token)) as [e0|proj];
    cbn [of_response].
  - split; [intros records H; discriminate|].
    intros e H _. cbn [bind fst snd] in *. injection H as ->. reflexivity.
  - rewrite !bind_ret. cbn [fst snd].
    destruct (truthy (get proj "rootId")) eqn:Hroot; cbn [negb].
    + rewrite list_folder_entries.
      destruct (Controller.list_folder W (bearer token) fuel (get proj "rootId") "")
        as [[recs|e0|] t]; unfold map_result; cbn [fst snd bind ret].
      * split; [|intros e H; discriminate].
        intros records H. injection H as <-.
        unfold try_except. rewrite map_map, !app_nil_r. reflexivity.
      * split; [intros records H; discriminate|].
        intros e H _. injection H as ->. cbn [try_except ret].
        now rewrite !app_nil_r.
      * split; [intros records H|intros e H]; discriminate.
    + split; [intros records H; discriminate|].
      intros e _ Hall. specialize (Hall proj eq_refl). congruence.
Qed.



(** ** Requests *)

Lemma length_tree_requests headers t :
  length (tree_requests headers t) = count_folders t.
Proof.
  induction t as [item|item children IH] using tree_ind'; [reflexivity|].
  cbn [tree_requests count_folders length]. f_equal.
  induction IH as [|c cs Hc _ IHcs]; [reflexivity|].
  cbn [flat_map map sum_list sum_list_with].
  now rewrite length_app, Hc, IHcs.
Qed.

Lemma length_forest_requests headers children :
  length (flat_map (tree_requests headers) children)
  = sum_list (map count_folders children).
Proof.
  induction children as [|c cs IH]; [reflexivity|].
  cbn [flat_map map sum_list sum_list_with].
  now rewrite length_app, length_tree_requests, IH.
Qed.

(** X3. One read per folder visited. On a served tree the enumerator
    asks for the project, then for the listing of the root folder, then
    for the listing of every folder of the tree, each once, a folder
    before the folders it holds and the folders of one listing in the
    order listed; these are all its requests, two more than there are
    folders in the tree. *)
Theorem one_request_per_folder W fuel project_id token children :
  project_served W project_id token children ->
  max_list (map depth children) < fuel ->
  (exists root_id,
     snd (Controller.list_project_files W fuel project_id token)
     = HttpGet (project_url project_id) (bearer token)
       :: HttpGet (folder_url root_id) (bearer token)
       :: flat_map (tree_requests (bearer token)) children)
  /\ length (snd (Controller.list_project_files W fuel project_id token))
     = 2 + sum_list (map count_folders children).
Proof.
  intros (proj & Hproj & Hroot & Hserved) Hfuel.
  assert (Hsnd : snd (Controller.list_project_files W fuel project_id token)
                 = HttpGet (project_url project_id) (bearer token)
                   :: HttpGet (folder_url (get proj "rootId")) (bearer token)
                   :: flat_map (tree_requests (bearer token)) children).
  { unfold Controller.list_project_files, get_object.
    rewrite Hproj. cbn [of_response]. rewrite bind_ret, Hroot. cbn [negb snd].
    unfold Controller.list_folder. change "" with (prefix_path []).
    now rewrite (list_folder_served file_record W (bearer token) fuel _ children []). }
  split; [now exists (get proj "rootId")|].
  rewrite Hsnd. cbn [length]. now rewrite length_forest_requests.
Qed.

Lemma one_request_per_folder_witness :
  (exists root_id,
     snd (Controller.list_project_files unnamed_world 3 (Str "P") "T")
     = HttpGet (project_url (Str "P")) (bearer "T")
       :: HttpGet (folder_url root_id) (bearer "T")
       :: flat_map (tree_requests (bearer "T")) unnamed_tree)
  /\ length (snd (Controller.list_project_files unnamed_world 3 (Str "P") "T"))
     = 2 + sum_list (map count_folders unnamed_tree).
Proof.
  apply (one_request_per_folder unnamed_world 3 (Str "P") "T" unnamed_tree).
  - exists (obj [("id", Str "P"); ("name", Str "Demo"); ("rootId", Str "R")]).
    repeat split; vm_compute; reflexivity.
  - vm_compute. lia.
Defined.



(** ** What holds of a walk in every world *)

Section WalkInvariant.

Context {R : Type}.
Variable record : value -> value -> string -> dict -> R.
Variable W : World.
Variable headers : string.

(** a property of every record built for a leaf *)
Variable P : R -> Prop.
Hypothesis P_leaf :
  forall item current_path,
    is_folder item = Ret false ->
    P (record (get item "id") (get_or item "name" (Str ""))
         (item_path current_path (get_or item "name" (Str ""))) item).

Lemma for_items_keeps rec :
  (forall folder_id path out,
     fst (rec folder_id path) = Ret out -> Forall P out) ->
  forall items path files out,
    Forall P files ->
    fst (for_items record rec items path files) = Ret out ->
    Forall P out.
Proof.
  intros Hrec. induction items as [|item rest IH]; intros path files out Hfiles.
  - cbn. now intros [= <-].
  - cbn [for_items].
    pose proof (item_type_pure item) as Hpure.
    assert (Hcls : forall ty, fst (item_type item) = Ret ty ->
                     is_folder item = Ret (String.eqb ty "FOLDER")).
    { intros ty Hty. unfold is_folder. now rewrite Hty. }
    destruct (item_type item) as [[ty|e|] t]; cbn [snd] in Hpure; subst t;
      [|discriminate..].
    change (@pair (outcome string) (list event) (Ret ty) []) with (ret ty).
    rewrite bind_pure. specialize (Hcls ty eq_refl).
    destruct (String.eqb ty "FOLDER").
    + specialize (Hrec (get item "id")
                       (item_path path (get_or item "name" (Str "")))).
      destruct (rec (get item "id") (item_path path (get_or item "name" (Str ""))))
        as [[sub|e|] t]; [|discriminate..].
      rewrite bind_ret. cbn [fst]. apply IH.
      apply Forall_app. split; [exact Hfiles|]. now apply Hrec.
    + apply IH. apply Forall_app. split; [exact Hfiles|].
      constructor; [|constructor]. now apply P_leaf.
Qed.

Lemma list_folder_keeps fuel :
  forall folder_id path out,
    fst (list_folder record W headers fuel folder_id path) = Ret out ->
    Forall P out.
Proof.
  induction fuel as [|fuel IH]; intros folder_id path out; [discriminate|].
  cbn [list_folder]. unfold get_array.
  destruct (http_array W (folder_url folder_id) headers) as [e|items];
    cbn [of_response]; [discriminate|].
  rewrite bind_ret. cbn [fst].
  apply (for_items_keeps (list_folder record W headers fuel) IH). constructor.
Qed.

Lemma for_items_events rec :
  (forall folder_id path, Forall (listing headers) (snd (rec folder_id path))) ->
  forall items path files,
    Forall (listing headers) (snd (for_items record rec items path files)).
Proof.
  intros Hrec. induction items as [|item rest IH]; intros path files;
    [constructor|].
  cbn [for_items].
  pose proof (item_type_pure item) as Hpure.
  destruct (item_type item) as [[ty|e|] t]; cbn [snd] in Hpure; subst t;
    [|constructor..].
  change (@pair (outcome string) (list event) (Ret ty) []) with (ret ty).
  rewrite bind_pure.
  destruct (String.eqb ty "FOLDER"); [|apply IH].
  specialize (Hrec (get item "id")
                   (item_path path (get_or item "name" (Str "")))).
  destruct (rec (get item "id") (item_path path (get_or item "name" (Str ""))))
    as [[sub|e|] t]; cbn [snd] in Hrec; [|exact Hrec..].
  rewrite bind_ret. cbn [snd]. apply Forall_app. split; [exact Hrec|apply IH].
Qed.

Lemma list_folder_events fuel :
  forall folder_id path,
    Forall (listing headers) (snd (list_folder record W headers fuel folder_id path)).
Proof.
  induction fuel as [|fuel IH]; intros folder_id path; [constructor|].
  cbn [list_folder]. unfold get_array.
  destruct (http_array W (folder_url folder_id) headers) as [e|items];
    cbn [of_response].
  - constructor; [now exists folder_id|constructor].
  - rewrite bind_ret. cbn [snd]. constructor; [now exists folder_id|].
    apply (for_items_events (list_folder record W headers fuel) IH).
Qed.

End WalkInvariant.

(** X5. In every world, whatever the service answers, a record the
    enumerator returns was built for an item of some listing that the
    loop took for a leaf: its [raw] is classified as a leaf, its [id],
    [name], [size] and [modifiedAt] are read off that item, and its path
    does not start with a slash. No record is ever returned for an item
    taken for a folder. *)
Theorem records_are_leaf_items W fuel project_id token out :
  fst (Controller.list_project_files W fuel project_id token) = Ret out ->
  Forall (fun r =>
            is_folder (FileRecord.raw r) = Ret false
            /\ r = file_record (get (FileRecord.raw r) "id")
                     (get_or (FileRecord.raw r) "name" (Str ""))
                     (FileRecord.path r) (FileRecord.raw r)
            /\ PyStr.starts_with "/" (FileRecord.path r) = false)
    out.
Proof.
  unfold Controller.list_project_files, get_object.
  destruct (http_object W (project_url project_id) (bearer token)) as [e|proj];
    cbn [of_response]; [discriminate|].
  rewrite bind_ret. cbn [fst].
  destruct (negb (truthy (get proj "rootId"))); [discriminate|].
  unfold Controller.list_folder.
  apply list_folder_keeps. intros item current_path Hleaf.
  cbn [file_record FileRecord.raw FileRecord.path].
  split; [exact Hleaf|]. split; [reflexivity|].
  now apply lstrip_no_lead.
Qed.

Lemma records_are_leaf_items_witness :
  Forall (fun r =>
            is_folder (FileRecord.raw r) = Ret false
            /\ r = file_record (get (FileRecord.raw r) "id")
                     (get_or (FileRecord.raw r) "name" (Str ""))
                     (FileRecord.path r) (FileRecord.raw r)
            /\ PyStr.starts_with "/" (FileRecord.path r) = false)
    (file_records scenario_tree).
Proof.
  apply (records_are_leaf_items scenario_world 2 (Str "P") "T").
  vm_compute. reflexivity.
Defined.

(** X6. The enumerator never retrieves a token itself. In every world and
    with every fuel its first request is the project lookup, and every
    request after it is the listing of a folder; all of them carry the
    bearer token it was given. *)
Theorem enumerator_requests W fuel project_id token :
  exists rest,
    snd (Controller.list_project_files W fuel project_id token)
    = HttpGet (project_url project_id) (bearer token) :: rest
    /\ Forall (listing (bearer token)) rest.
Proof.
  unfold Controller.list_project_files, get_object.
  destruct (http_object W (project_url project_id) (bearer token)) as [e|proj];
    cbn [of_response].
  - exists []. split; [reflexivity|constructor].
  - rewrite bind_ret. cbn [snd].
    destruct (negb (truthy (get proj "rootId"))).
    + exists []. split; [reflexivity|constructor].
    + eexists. split; [reflexivity|]. apply list_folder_events.
Qed.

(** X7. The option builders retrieve the token at most once, before
    anything else, and every request they make carries the token that was
    retrieved: the events of [get_trimble_projects] are the retrieval,
    followed by the request for the projects if there is a token; those of
    [get_project_files] are none at all, or the retrieval, followed if
    there is a token by the project lookup and then by folder listings
    only. *)
Theorem builders_events W fuel project :
  (snd (get_trimble_projects W) = [GetAccessToken integration_name]
   \/ exists token,
        access_token W integration_name = Body token
        /\ snd (get_trimble_projects W)
           = [GetAccessToken integration_name;
              HttpGet projects_url (bearer token)])
  /\ (snd (get_project_files W fuel project) = []
      \/ snd (get_project_files W fuel project)
         = [GetAccessToken integration_name]
      \/ exists token rest,
           access_token W integration_name = Body token
           /\ snd (get_project_files W fuel project)
              = GetAccessToken integration_name
                :: HttpGet (project_url project) (bearer token) :: rest
           /\ Forall (listing (bearer token)) rest).
Proof.
  split.
  - unfold get_trimble_projects, load_projects, get_access_token, get_array.
    destruct (access_token W integration_name) as [e|token]; cbn [of_response];
      [now left|].
    right. exists token. split; [reflexivity|].
    rewrite bind_ret. cbn [fst snd].
    destruct (http_array W projects_url (bearer token)) as [e|projects];
      cbn [of_response]; [reflexivity|].
    rewrite bind_ret. cbn [fst snd].
    assert (Hpure : snd (project_options projects) = []).
    { clear. induction projects as [|p ps IH]; [reflexivity|].
      cbn [project_options]. unfold getitem.
      destruct (p !! "id"); [|reflexivity]. rewrite bind_pure.
      destruct (p !! "name"); [|reflexivity]. rewrite bind_pure.
      destruct (project_options ps) as [[os|e|] t]; cbn [snd] in IH; subst t;
        reflexivity. }
    destruct (project_options projects) as [[os|e|] t]; cbn [snd] in Hpure;
      subst t; reflexivity.
  - unfold get_project_files, load_files, get_access_token, get_object.
    destruct (negb (truthy project)); [now left|]. right.
    destruct (access_token W integration_name) as [e|token]; cbn [of_response];
      [now left|].
    right. exists token. rewrite bind_ret. cbn [fst snd].
    destruct (http_object W (project_url project) (bearer token)) as [e|proj];
      cbn [of_response].
    + exists []. repeat split; constructor.
    + rewrite bind_ret. cbn [fst snd].
      destruct (negb (truthy (get proj "rootId"))).
      * exists []. repeat split; constructor.
      * pose proof (list_folder_events file_entry W (bearer token) fuel
                      (get proj "rootId") "") as Hev.
        destruct (list_folder file_entry W (bearer token) fuel
                    (get proj "rootId") "") as [[files|e|] t]; cbn [snd] in Hev.
        -- exists t. rewrite bind_ret. cbn [fst snd try_except ret].
           rewrite !app_nil_r. now repeat split.
        -- exists t. cbn [bind try_except ret snd]. rewrite !app_nil_r.
           now repeat split.
        -- exists t. cbn [bind try_except ret snd]. now repeat split.
Qed.

(** ** The project picker *)







(** ** The download and the web view *)

Lemma selected_guard v :
  (negb (truthy v) || eq_str v "error")%bool = negb (selected v).
Proof. unfold selected. now destruct (truthy v), (eq_str v "error"). Qed.

Lemma selected_file_guard v :
  (negb (truthy v) || eq_str v "error" || eq_str v "")%bool = negb (selected v).
Proof.
  unfold selected. destruct v as [| b | z | s]; cbn [truthy eq_str].
  - reflexivity.
  - now destruct b.
  - now destruct (z =? 0)%Z.
  - destruct (String.eqb s ""), (String.eqb s "error"); reflexivity.
Qed.

Lemma turned_away_iff project file :
  turned_away project file
  <-> selected project = false \/ selected file = false.
Proof.
  split.
  - intros H. destruct (selected project) eqn:Hp; [|now left].
    destruct (selected file) eqn:Hf; [|now right].
    destruct (H offline_world) as [[msg Hd] _].
    unfold download_viewer_html in Hd.
    rewrite selected_file_guard, selected_guard, Hp, Hf in Hd.
    discriminate.
  - intros H W. unfold download_viewer_html, show_trimble_viewer.
    rewrite !selected_file_guard, !selected_guard.
    destruct (selected project); cbn [negb].
    + destruct H as [H|H]; [discriminate|]. rewrite H. cbn [negb].
      split; eexists; reflexivity.
    + split; eexists; reflexivity.
Qed.

(** X10. The download and the web view ask for a token exactly when a
    project and a file are both selected, that is, neither is empty, null
    or the value "error". Otherwise, in every world, the download raises
    a [UserError] and the web view returns a page that is a heading, and
    nothing leaves the process. *)
Theorem token_asked_iff_selected project file :
  turned_away project file
  <-> selected project = false \/ selected file = false.
Proof. apply turned_away_iff. Qed.

Lemma token_asked_iff_selected_witness :
  turned_away (Str "P") (Str "error") /\ ~ turned_away (Str "P") (Str "1").
Proof.
  split.
  - apply (proj2 (token_asked_iff_selected (Str "P") (Str "error"))).
    right. reflexivity.
  - intros H.
    apply (proj1 (token_asked_iff_selected (Str "P") (Str "1"))) in H.
    destruct H as [H|H]; vm_compute in H; discriminate.
Defined.

Lemma viewer_calls W project file :
  selected project = true ->
  selected file = true ->
  download_viewer_html W project file
  = (access_token <- get_access_token W integration_name ;;
     html <- viewer_html access_token project file ;;
     ret (DownloadResult.mk html "trimble_connect_viewer.html"))
  /\ show_trimble_viewer W project file
     = (access_token <- get_access_token W integration_name ;;
        html <- viewer_html access_token project file ;;
        ret (WebResult.mk html)).
Proof.
  intros Hp Hf. unfold download_viewer_html, show_trimble_viewer.
  now rewrite !selected_file_guard, !selected_guard, Hp, Hf.
Qed.

Lemma viewer_html_pure token project file : snd (viewer_html token project file) = [].
Proof. now destruct project, file. Qed.

(** X11. What is downloaded is what is shown. For every selection that
    is let through and in every world, the download and the web view make
    the same requests and end the same way, the data of the downloaded
    file being the page of the view; the file is always named
    [trimble_connect_viewer.html]. *)
Theorem download_is_the_view W project file :
  selected project = true ->
  selected file = true ->
  map_result DownloadResult.data (download_viewer_html W project file)
  = map_result WebResult.html (show_trimble_viewer W project file)
  /\ (forall d,
        fst (download_viewer_html W project file) = Ret d ->
        DownloadResult.file_name d = "trimble_connect_viewer.html").
Proof.
  intros Hp Hf. destruct (viewer_calls W project file Hp Hf) as [-> ->].
  unfold get_access_token.
  destruct (access_token W integration_name) as [e|token]; cbn [of_response];
    [split; [reflexivity|discriminate]|].
  rewrite !bind_ret.
  pose proof (viewer_html_pure token project file) as Hpure.
  destruct (viewer_html token project file) as [[html|e|] t]; cbn [snd] in Hpure;
    subst t; cbn [bind ret fst snd]; (split; [reflexivity|]);
    try discriminate.
  now intros d [= <-].
Qed.

Lemma download_is_the_view_witness :
  map_result DownloadResult.data
    (download_viewer_html scenario_world (Str "P") (Str "1"))
  = map_result WebResult.html
      (show_trimble_viewer scenario_world (Str "P") (Str "1"))
  /\ (forall d,
        fst (download_viewer_html scenario_world (Str "P") (Str "1")) = Ret d ->
        DownloadResult.file_name d = "trimble_connect_viewer.html").
Proof.
  apply (download_is_the_view scenario_world (Str "P") (Str "1")); reflexivity.
Defined.

(** X12. The page for a selection. With a token at hand and a project
    and a file selected whose ids, like the token, hold no double and no
    trailing underscore, both the download and the web view give, after
    the one token retrieval, the template with the token, the project id
    and the file id in the places of their markers and nothing in the
    place of the version marker. *)
Theorem viewer_of_selection W token p f :
  access_token W integration_name = Body token ->
  selected (Str p) = true ->
  selected (Str f) = true ->
  quiet token = true -> quiet p = true -> quiet f = true ->
  let page := segment0 +:+ token +:+ segment1 +:+ p +:+ segment2 +:+ f
              +:+ segment3 +:+ segment4 in
  download_viewer_html W (Str p) (Str f)
  = (Ret (DownloadResult.mk page "trimble_connect_viewer.html"),
     [GetAccessToken integration_name])
  /\ show_trimble_viewer W (Str p) (Str f)
     = (Ret (WebResult.mk page), [GetAccessToken integration_name]).
Proof.
  intros Htok Hp Hf Hqt Hqp Hqf page.
  destruct (viewer_calls W (Str p) (Str f) Hp Hf) as [-> ->].
  unfold get_access_token. rewrite Htok. cbn [of_response].
  rewrite !bind_ret. unfold viewer_html. cbn [replace_argument].
  rewrite !bind_pure.
  rewrite (viewer_html_quiet token p f None Hqt Hqp Hqf eq_refl).
  split; reflexivity.
Qed.

Lemma viewer_of_selection_witness :
  let page := segment0 +:+ "T" +:+ segment1 +:+ "P" +:+ segment2 +:+ "1"
              +:+ segment3 +:+ segment4 in
  download_viewer_html scenario_world (Str "P") (Str "1")
  = (Ret (DownloadResult.mk page "trimble_connect_viewer.html"),
     [GetAccessToken integration_name])
  /\ show_trimble_viewer scenario_world (Str "P") (Str "1")
     = (Ret (WebResult.mk page), [GetAccessToken integration_name]).
Proof.
  apply (viewer_of_selection scenario_world "T" "P" "1"); reflexivity.
Defined.

(** X13. Failures of the download and of the web view are not caught.
    For a selection that is let through: when the token retrieval fails,
    both raise its error; when there is a token but the project, or else
    the file, is not text, both raise the [TypeError] of [str.replace]
    naming the type of the project, or else of the file. In each case the
    token retrieval is the only event. *)
Theorem viewer_failures W project file :
  selected project = true ->
  selected file = true ->
  (forall e,
     access_token W integration_name = Failed e ->
     download_viewer_html W project file
     = (Raise e, [GetAccessToken integration_name])
     /\ show_trimble_viewer W project file
        = (Raise e, [GetAccessToken integration_name]))
  /\ (forall token culprit,
        access_token W integration_name = Body token ->
        ((forall s, project <> Str s) /\ culprit = project
         \/ (exists s, project = Str s) /\ (forall s, file <> Str s)
            /\ culprit = file) ->
        let e := TypeError ("replace() argument 2 must be str, not "
                            +:+ type_name culprit) in
        download_viewer_html W project file
        = (Raise e, [GetAccessToken integration_name])
        /\ show_trimble_viewer W project file
           = (Raise e, [GetAccessToken integration_name])).
Proof.
  intros Hp Hf. destruct (viewer_calls W project file Hp Hf) as [-> ->].
  unfold get_access_token. split.
  - intros e ->. split; reflexivity.
  - intros token culprit Htok Hc. rewrite Htok. cbv zeta.
    cbn [of_response]. rewrite !bind_ret.
    unfold viewer_html.
    destruct Hc as [[Hns ->]|[[s ->] [Hns ->]]].
    + destruct project as [| b | z | s]; try (split; reflexivity).
      now destruct (Hns s).
    + cbn [replace_argument]. rewrite !bind_pure.
      destruct file as [| b | z | s']; try (split; reflexivity).
      now destruct (Hns s').
Qed.

Lemma viewer_failures_witness :
  download_viewer_html offline_world (Str "P") (Int 7)
  = (Raise (Exn "ConnectionError" "token endpoint unreachable"),
     [GetAccessToken integration_name])
  /\ show_trimble_viewer scenario_world (Str "P") (Int 7)
     = (Raise (TypeError "replace() argument 2 must be str, not int"),
        [GetAccessToken integration_name]).
Proof.
  split.
  - apply (proj1 (viewer_failures offline_world (Str "P") (Int 7)
                    eq_refl eq_refl)).
    reflexivity.
  - apply (proj2 (viewer_failures scenario_world (Str "P") (Int 7)
                    eq_refl eq_refl) "T" (Int 7)).
    + reflexivity.
    + right. split; [now exists "P"|]. split; [discriminate|reflexivity].
Defined.

(** ** Placeholder options *)

Lemma selected_error : selected (Str "error") = false.
Proof. reflexivity. Qed.

Lemma selected_empty : selected (Str "") = false.
Proof. reflexivity. Qed.

Lemma selected_falsy v : truthy v = false -> selected v = false.
Proof. unfold selected. now intros ->. Qed.

(** X14. A placeholder option never leads to a viewer. Whenever a picker
    offers its one placeholder instead of a listing (the project picker
    after a failure or for an empty project list; the file picker with no
    project selected, after a failure, for a project without root folder
    or for a project without files), selecting that option makes the
    download raise a [UserError] and the web view show a heading, without
    asking for a token. *)
Theorem placeholders_turned_away W fuel project :
  (forall e t file,
     load_projects W = (Raise e, t) ->
     exists o, fst (get_trimble_projects W) = Ret [o]
               /\ turned_away (OptionListElement.value o) file)
  /\ (forall token file,
        access_token W integration_name = Body token ->
        http_array W projects_url (bearer token) = Body [] ->
        exists o, fst (get_trimble_projects W) = Ret [o]
                  /\ turned_away (OptionListElement.value o) file)
  /\ (truthy project = false ->
      exists o, fst (get_project_files W fuel project) = Ret [o]
                /\ turned_away project (OptionListElement.value o))
  /\ (forall e t,
        truthy project = true ->
        load_files W fuel project = (Raise e, t) ->
        exists o, fst (get_project_files W fuel project) = Ret [o]
                  /\ turned_away project (OptionListElement.value o))
  /\ (forall token,
        truthy project = true ->
        access_token W integration_name = Body token ->
        (exists proj,
           http_object W (project_url project) (bearer token) = Body proj
           /\ truthy (get proj "rootId") = false)
        \/ fst (Controller.list_project_files W fuel project token) = Ret [] ->
        exists o, fst (get_project_files W fuel project) = Ret [o]
                  /\ turned_away project (OptionListElement.value o)).
Proof.
  split; [|split; [|split; [|split]]].
  - intros e t file H. eexists. split.
    + unfold get_trimble_projects. rewrite (try_except_raise _ _ e t H).
      reflexivity.
    + apply turned_away_iff. left. exact selected_error.
  - intros token file Htok Hget. eexists. split.
    + unfold get_trimble_projects, load_projects, get_access_token, get_array.
      rewrite Htok. cbn [of_response]. rewrite bind_ret, Hget. reflexivity.
    + apply turned_away_iff. left. exact selected_empty.
  - intros Hp. eexists. split.
    + unfold get_project_files. rewrite Hp. reflexivity.
    + apply turned_away_iff. left. now apply selected_falsy.
  - intros e t Hp H. eexists. split.
    + unfold get_project_files. rewrite Hp. cbn [negb].
      rewrite (try_except_raise _ _ e t H). reflexivity.
    + apply turned_away_iff. right. exact selected_error.
  - intros token Hp Htok [(proj & Hproj & Hroot)|Hnone]; eexists; split.
    + unfold get_project_files, load_files, get_access_token, get_object.
      rewrite Hp, Htok. cbn [negb of_response].
      rewrite bind_ret, Hproj. cbn [of_response].
      rewrite bind_ret, Hroot. reflexivity.
    + apply turned_away_iff. right. exact selected_empty.
    + destruct (get_project_files_after_enumerator W fuel project token Hp Htok)
        as [Hret _].
      rewrite (Hret [] Hnone). reflexivity.
    + apply turned_away_iff. right. exact selected_empty.
Qed.

Lemma placeholders_turned_away_witness :
  exists o, fst (get_project_files failing_world 3 (Str "P")) = Ret [o]
            /\ turned_away (Str "P") (OptionListElement.value o).
Proof.
  apply (proj1 (proj2 (proj2 (proj2
           (placeholders_turned_away failing_world 3 (Str "P")))))
           not_found
           [GetAccessToken integration_name;
            HttpGet (project_url (Str "P")) "Bearer T";
            HttpGet (folder_url (Str "R")) "Bearer T";
            HttpGet (folder_url (Str "S")) "Bearer T"]).
  - reflexivity.
  - vm_compute. reflexivity.
Defined.



(** ** Arguments that hold a marker *)

Lemma replace_from_clean old new lit rest :
  clean old lit rest = true ->
  replace_from old new 0 (lit +:+ rest) = lit +:+ replace_from old new 0 rest.
Proof.
  induction lit as [|c lit IH]; [reflexivity|].
  cbn [clean]. intros [Hc Hrest]%andb_true_iff.
  apply negb_true_iff in Hc.
  change (String c lit +:+ rest) with (String c (lit +:+ rest)) in *.
  cbn [replace_from]. rewrite Hc.
  change (String c lit +:+ replace_from old new 0 rest)
    with (String c (lit +:+ replace_from old new 0 rest)).
  f_equal. exact (IH Hrest).
Qed.

(** X16. The markers are replaced one after the other, and the
    arguments are not protected. A token that is the text of the project
    marker is itself replaced by the project id when the project's turn
    comes: the page is the page for the project id given as token. A
    project id that is the text of the access-token marker stays in the
    page as it is, the token's turn being over. (The other arguments hold
    no double and no trailing underscore.) *)
Theorem replacement_order_matters a p m v :
  quiet a = true -> quiet p = true -> quiet m = true ->
  quiet (or_empty v) = true ->
  build_trimble_viewer_html "__PROJECT_ID__" p m v
  = build_trimble_viewer_html p p m v
  /\ build_trimble_viewer_html a "__ACCESS_TOKEN__" m v
     = segment0 +:+ a +:+ segment1 +:+ "__ACCESS_TOKEN__" +:+ segment2 +:+ m
       +:+ segment3 +:+ or_empty v +:+ segment4.
Proof.
  intros Ha Hp Hm Hv. split.
  - rewrite (viewer_html_quiet p p m v) by assumption.
    unfold build_trimble_viewer_html.
    rewrite template_segments, !replace_marker.
    rewrite (replace_from_quiet "__PROJECT_ID__" _ segment0) by by_computation.
    rewrite (replace_from_here "__PROJECT_ID__"),
      (replace_from_none "__PROJECT_ID__") by by_computation.
    rewrite (replace_from_quiet p _ segment0) by by_computation.
    rewrite (replace_from_here p).
    rewrite (replace_from_quiet p _ segment1) by by_computation.
    rewrite (replace_from_here p), (replace_from_none p) by by_computation.
    rewrite (replace_from_quiet m _ segment0) by by_computation.
    rewrite (replace_from_quiet m _ p) by by_computation.
    rewrite (replace_from_quiet m _ segment1) by by_computation.
    rewrite (replace_from_quiet m _ p) by by_computation.
    rewrite (replace_from_quiet m _ segment2) by by_computation.
    rewrite (replace_from_here m), (replace_from_none m) by by_computation.
    rewrite (replace_from_quiet (or_empty v) _ segment0) by by_computation.
    rewrite (replace_from_quiet (or_empty v) _ p) by by_computation.
    rewrite (replace_from_quiet (or_empty v) _ segment1) by by_computation.
    rewrite (replace_from_quiet (or_empty v) _ p) by by_computation.
    rewrite (replace_from_quiet (or_empty v) _ segment2) by by_computation.
    rewrite (replace_from_quiet (or_empty v) _ m) by by_computation.
    rewrite (replace_from_quiet (or_empty v) _ segment3) by by_computation.
    rewrite (replace_from_here (or_empty v)), (replace_from_none (or_empty v))
      by by_computation.
    reflexivity.
  - unfold build_trimble_viewer_html.
    rewrite template_segments, !replace_marker.
    rewrite (replace_from_quiet a _ segment0) by by_computation.
    rewrite (replace_from_here a), (replace_from_none a) by by_computation.
    rewrite (replace_from_quiet "__ACCESS_TOKEN__" _ segment0) by by_computation.
    rewrite (replace_from_quiet "__ACCESS_TOKEN__" _ a) by by_computation.
    rewrite (replace_from_quiet "__ACCESS_TOKEN__" _ segment1) by by_computation.
    rewrite (replace_from_here "__ACCESS_TOKEN__"),
      (replace_from_none "__ACCESS_TOKEN__") by by_computation.
    rewrite (replace_from_quiet m _ segment0) by by_computation.
    rewrite (replace_from_quiet m _ a) by by_computation.
    rewrite (replace_from_quiet m _ segment1) by by_computation.
    rewrite (replace_from_clean "__MODEL_ID__" m "__ACCESS_TOKEN__")
      by by_computation.
    rewrite (replace_from_quiet m _ segment2) by by_computation.
    rewrite (replace_from_here m), (replace_from_none m) by by_computation.
    rewrite (replace_from_quiet (or_empty v) _ segment0) by by_computation.
    rewrite (replace_from_quiet (or_empty v) _ a) by by_computation.
    rewrite (replace_from_quiet (or_empty v) _ segment1) by by_computation.
    rewrite (replace_from_clean "__VERSION_ID__" (or_empty v) "__ACCESS_TOKEN__")
      by by_computation.
    rewrite (replace_from_quiet (or_empty v) _ segment2) by by_computation.
    rewrite (replace_from_quiet (or_empty v) _ m) by by_computation.
    rewrite (replace_from_quiet (or_empty v) _ segment3) by by_computation.
    rewrite (replace_from_here (or_empty v)), (replace_from_none (or_empty v))
      by by_computation.
    reflexivity.
Qed.

Lemma replacement_order_matters_witness :
  build_trimble_viewer_html "__PROJECT_ID__" "P" "M" None
  = build_trimble_viewer_html "P" "P" "M" None
  /\ build_trimble_viewer_html "T" "__ACCESS_TOKEN__" "M" None
     = segment0 +:+ "T" +:+ segment1 +:+ "__ACCESS_TOKEN__" +:+ segment2 +:+ "M"
       +:+ segment3 +:+ or_empty None +:+ segment4.
Proof.
  apply (replacement_order_matters "T" "P" "M" None); reflexivity.
Defined.

(** ** No empty picker, no guard against cycles *)

Lemma or_fallback_not_nil {A} (options : list A) (fallback : A) :
  or_fallback options fallback <> [].
Proof. now destruct options. Qed.

Lemma project_options_total projects :
  (exists os, project_options projects = ret os)
  \/ exists e, project_options projects = raise e.
Proof.
  induction projects as [|p ps IH]; [left; now exists []|].
  cbn [project_options]. unfold getitem.
  destruct (p !! "id") as [i|]; [|right; now eexists].
  rewrite bind_pure.
  destruct (p !! "name") as [n|]; [|right; now eexists].
  rewrite bind_pure.
  destruct IH as [[os ->]|[e ->]]; [left|right]; now eexists.
Qed.

(** X17. A picker is never empty. In every world [get_trimble_projects]
    returns at least one option, and so does [get_project_files]
    whenever its walk comes to an end. *)
Theorem pickers_never_empty W fuel project :
  (exists options,
     fst (get_trimble_projects W) = Ret options /\ options <> [])
  /\ (fst (get_project_files W fuel project) = OutOfFuel
      \/ exists options,
           fst (get_project_files W fuel project) = Ret options
           /\ options <> []).
Proof.
  split.
  - unfold get_trimble_projects, load_projects, get_access_token, get_array.
    destruct (access_token W integration_name) as [e|token]; cbn [of_response];
      [eexists; split; [reflexivity|discriminate]|].
    rewrite bind_ret. cbn [fst snd].
    destruct (http_array W projects_url (bearer token)) as [e|projects];
      cbn [of_response]; [eexists; split; [reflexivity|discriminate]|].
    rewrite bind_ret. cbn [fst snd].
    destruct (project_options_total projects) as [[os ->]|[e ->]].
    + rewrite bind_pure. eexists. split; [reflexivity|].
      apply or_fallback_not_nil.
    + eexists. split; [reflexivity|discriminate].
  - unfold get_project_files, load_files, get_access_token, get_object.
    destruct (negb (truthy project));
      [right; eexists; split; [reflexivity|discriminate]|].
    destruct (access_token W integration_name) as [e|token]; cbn [of_response];
      [right; eexists; split; [reflexivity|discriminate]|].
    rewrite bind_ret. cbn [fst snd].
    destruct (http_object W (project_url project) (bearer token)) as [e|proj];
      cbn [of_response];
      [right; eexists; split; [reflexivity|discriminate]|].
    rewrite bind_ret. cbn [fst snd].
    destruct (negb (truthy (get proj "rootId")));
      [right; eexists; split; [reflexivity|discriminate]|].
    destruct (list_folder file_entry W (bearer token) fuel (get proj "rootId") "")
      as [[files|e|] t].
    + right. rewrite bind_ret. eexists. split; [reflexivity|].
      apply or_fallback_not_nil.
    + right. eexists. split; [reflexivity|discriminate].
    + now left.
Qed.

Section WalkCycle.

Context {R : Type}.
Variable record : value -> value -> string -> dict -> R.

Lemma for_items_never_returns rec item :
  is_folder item = Ret true ->
  (forall path out, fst (rec (get item "id") path) <> Ret out) ->
  forall items, In item items ->
  forall path files out,
    fst (for_items record rec items path files) <> Ret out.
Proof.
  intros Hfolder Hrec.
  induction items as [|x rest IH]; intros Hin path files out; [destruct Hin|].
  cbn [for_items].
  pose proof (item_type_pure x) as Hpure.
  assert (Hcls : forall ty, fst (item_type x) = Ret ty ->
                   is_folder x = Ret (String.eqb ty "FOLDER")).
  { intros ty Hty. unfold is_folder. now rewrite Hty. }
  destruct (item_type x) as [[ty|e|] t]; cbn [snd] in Hpure; subst t;
    [|discriminate..].
  change (@pair (outcome string) (list event) (Ret ty) []) with (ret ty).
  rewrite bind_pure. specialize (Hcls ty eq_refl).
  destruct (String.eqb ty "FOLDER") eqn:Hty.
  - destruct (rec (get x "id") (item_path path (get_or x "name" (Str ""))))
      as [[sub|e|] t] eqn:Hr; [|discriminate..].
    rewrite bind_ret. cbn [fst].
    destruct Hin as [->|Hin]; [|now apply IH].
    exfalso. apply (Hrec (item_path path (get_or item "name" (Str ""))) sub).
    now rewrite Hr.
  - destruct Hin as [->|Hin]; [congruence|now apply IH].
Qed.

End WalkCycle.

(** X18. The walk has no guard against cycles. If the listing of a
    folder holds an item that the loop takes for a folder and whose id is
    the id of the folder being listed, then the walk from that folder
    never returns records, whatever the fuel: it goes down into the same
    listing again and again. *)
Theorem self_listing_folder W headers folder_id items item :
  http_array W (folder_url folder_id) headers = Body items ->
  In item items ->
  is_folder item = Ret true ->
  get item "id" = folder_id ->
  forall fuel path out,
    fst (Controller.list_folder W headers fuel folder_id path) <> Ret out.
Proof.
  intros Hget Hin Hfolder Hid fuel.
  induction fuel as [|fuel IH]; intros path out; [discriminate|].
  unfold Controller.list_folder in *. cbn [list_folder]. unfold get_array.
  rewrite Hget. cbn [of_response]. rewrite bind_ret. cbn [fst].
  apply (for_items_never_returns file_record _ item Hfolder); [|exact Hin].
  rewrite Hid. exact IH.
Qed.

Lemma self_listing_folder_witness :
  fst (Controller.list_folder loop_world "Bearer T" 40 (Str "R") "")
  <> Ret (file_records [File a_ifc]).
Proof.
  apply (self_listing_folder loop_world "Bearer T" (Str "R")
           [a_ifc; loop_folder] loop_folder).
  - vm_compute. reflexivity.
  - right. left. reflexivity.
  - vm_compute. reflexivity.
  - vm_compute. reflexivity.
Defined.
